(** * The BleachBit GUI prototype: the options filter and its neighbours

    A shallow embedding of [BleachBitWindow.on_search_changed_filter]
    (src/bleachbit_gui.py, lines 136-168) together with the parts of the
    Gtk.TreeStore interface it calls, of the functions that fill the store
    and of the callbacks of the results pane, and the properties of these.

    Modelling choices.
    - A [str] is a sequence of Unicode code points.  [Py.lower] is
      [str.lower] as CPython computes it: every code point is replaced by
      its full lower-case mapping, but for the capital sigma, which becomes
      the final or the medial small sigma as its neighbours tell.  The
      tables of the Unicode Character Database that [str.lower] looks up
      (the full lower-case mapping, Cased, Case_Ignorable) are no part of
      the repository: they are a parameter, [Unicode.database], of all that
      lowers a string.  [Unicode.sample] holds the entries of the code
      points written in the examples.
    - The store [Gtk.TreeStore(str, bool)] is a forest of rows, each with the
      two columns and its child rows.  A [TreeIter] designates a row by its
      tree path (the indices from the top level down).
    - The callback runs in a small state-and-exception monad over the fields
      of the window it can reach: the search text, the store, and the
      standard output written by its [print]. *)

From Stdlib Require Import List String Ascii ZArith NArith Bool Arith Lia.
From Equations Require Import Equations.
Import ListNotations.

Local Open Scope string_scope.
Local Open Scope list_scope.

(* ===================================================================== *)
(** ** Unicode *)
(* ===================================================================== *)

Module Unicode.

(** The tables [str.lower] consults, by code point. *)
Record database : Type := {
  to_lower_full : N -> list N;
  is_cased : N -> bool;
  is_case_ignorable : N -> bool
}.

Definition capital_sigma : N := 931.      (* U+03A3 *)
Definition final_sigma : N := 962.        (* U+03C2 *)
Definition small_sigma : N := 963.        (* U+03C3 *)

Definition between (lo hi c : N) : bool := ((lo <=? c) && (c <=? hi))%N.

(** The entries of the database for Basic Latin, the Latin-1 Supplement,
    the dotted capital I, the dotless i, the long s, the Greek letters
    U+0391 to U+03CE and the combining marks U+0300 to U+036F.  The other
    code points are left as they are and taken as uncased: their entries
    are not reproduced here. *)
Definition sample : database := {|
  to_lower_full c :=
    if (between 65 90 c                                   (* A-Z *)
        || between 192 222 c && negb (c =? 215)%N         (* Latin-1 *)
        || between 913 939 c && negb (c =? 930)%N)%bool   (* Greek *)
    then [(c + 32)%N]
    else if (c =? 304)%N then [105; 775]%N                (* U+0130 *)
    else [c];
  is_cased c :=
    (between 65 90 c || between 97 122 c
     || (c =? 170)%N || (c =? 181)%N || (c =? 186)%N
     || between 192 255 c && negb (c =? 215)%N && negb (c =? 247)%N
     || (c =? 304)%N || (c =? 305)%N || (c =? 383)%N
     || between 913 974 c && negb (c =? 930)%N)%bool;
  is_case_ignorable c :=
    ((c =? 39)%N || (c =? 46)%N || (c =? 58)%N || (c =? 94)%N || (c =? 96)%N
     || (c =? 168)%N || (c =? 173)%N || (c =? 175)%N || (c =? 180)%N
     || (c =? 183)%N || (c =? 184)%N || between 768 879 c)%bool
|}.

End Unicode.

(* ===================================================================== *)
(** ** Python strings *)
(* ===================================================================== *)

Module Py.

(** A string: its code points. *)
Definition str : Type := list N.

(** A literal written with ASCII characters. *)
Fixpoint text (s : string) : str :=
  match s with
  | EmptyString => []
  | String c s' => N_of_ascii c :: text s'
  end.

Section Lower.

Variable ucd : Unicode.database.

(** The code points from the first one that is not case-ignorable. *)
Fixpoint skip_case_ignorable (s : str) : str :=
  match s with
  | [] => []
  | c :: rest =>
      if Unicode.is_case_ignorable ucd c then skip_case_ignorable rest else s
  end.

(** What a capital sigma becomes.  [before] holds the code points before
    it, the nearest first, and [after] those after it.  It is a final sigma
    when a cased letter comes before it and none after it, case-ignorable
    code points being skipped on both sides. *)
Definition handle_capital_sigma (before after : str) : N :=
  let final_sigma :=
    match skip_case_ignorable before with
    | c :: _ => Unicode.is_cased ucd c
    | [] => false
    end in
  let final_sigma :=
    if final_sigma then
      match skip_case_ignorable after with
      | c :: _ => negb (Unicode.is_cased ucd c)
      | [] => true
      end
    else false in
  if final_sigma then Unicode.final_sigma else Unicode.small_sigma.

(** The lower-case form of the code point [c] between [before] and [after]. *)
Definition lower_ucs4 (before : str) (c : N) (after : str) : list N :=
  if (c =? Unicode.capital_sigma)%N
  then [handle_capital_sigma before after]
  else Unicode.to_lower_full ucd c.

(** The loop of [str.lower] over the code points, [before] being those
    already gone through, the nearest first. *)
Fixpoint lower_from (before : str) (s : str) : str :=
  match s with
  | [] => []
  | c :: rest => lower_ucs4 before c rest ++ lower_from (c :: before) rest
  end.

(** [s.lower()] *)
Definition lower (s : str) : str := lower_from [] s.

End Lower.

(** [s.startswith(sub)] *)
Fixpoint startswith (s sub : str) : bool :=
  match sub, s with
  | [], _ => true
  | _ :: _, [] => false
  | a :: sub', b :: s' => (a =? b)%N && startswith s' sub'
  end.

(** [s.find(sub)], searching from offset [i] of the original string: the
    lowest index at which [sub] occurs, or [-1]. *)
Fixpoint find_from (i : Z) (s sub : str) : Z :=
  if startswith s sub then i
  else match s with
       | [] => (-1)%Z
       | _ :: s' => find_from (i + 1) s' sub
       end.

Definition find (s sub : str) : Z := find_from 0 s sub.

(** Truth value of an object that is [None] or a [str]. *)
Definition truthy (o : option str) : bool :=
  match o with
  | None => false
  | Some [] => false
  | Some (_ :: _) => true
  end.

(** What an f-string writes for an object that is [None] or a [str]. *)
Definition format (o : option str) : str :=
  match o with
  | None => text "None"
  | Some s => s
  end.

End Py.

(* ===================================================================== *)
(** ** Gtk.TreeStore(str, bool) *)
(* ===================================================================== *)

(** One row of the store: column 0, column 1, and the child rows. *)
#[local] Set Warnings "-register-all".
Inductive row : Type :=
  Row { label : Py.str; enabled : bool; children : list row }.

Definition TreeStore := list row.

(** An iterator designates a row by its path. *)
Definition TreeIter := list nat.

(** The value held by a cell. *)
Inductive value : Type :=
| VStr (s : Py.str)
| VBool (b : bool).

Module Gtk.

(** The row a path leads to, if any. *)
Fixpoint nth_row (rows : list row) (path : TreeIter) : option row :=
  match path with
  | [] => None
  | i :: rest =>
      match nth_error rows i with
      | None => None
      | Some r =>
          match rest with
          | [] => Some r
          | _ :: _ => nth_row (children r) rest
          end
      end
  end.

Definition iter_is_valid (model : TreeStore) (iter : TreeIter) : bool :=
  match nth_row model iter with Some _ => true | None => false end.

(** [model.get_value(iter, column)]; [None] stands for the failure on an
    iterator or a column that does not exist. *)
Definition get_value (model : TreeStore) (iter : TreeIter) (column : nat)
  : option value :=
  match nth_row model iter with
  | None => None
  | Some r =>
      match column with
      | 0 => Some (VStr (label r))
      | 1 => Some (VBool (enabled r))
      | _ => None
      end
  end.

(** [model.iter_parent(iter)]: [None] for a top-level row. *)
Definition iter_parent (model : TreeStore) (iter : TreeIter)
  : option TreeIter :=
  match removelast iter with
  | [] => None
  | p => if iter_is_valid model iter then Some p else None
  end.

(** [model.iter_children(iter)]: the first child, [None] without children. *)
Definition iter_children (model : TreeStore) (iter : TreeIter)
  : option TreeIter :=
  let first := iter ++ [0] in
  if iter_is_valid model first then Some first else None.

(** The path of the following sibling. *)
Fixpoint path_next (path : TreeIter) : TreeIter :=
  match path with
  | [] => []
  | [i] => [S i]
  | i :: rest => i :: path_next rest
  end.

(** [model.iter_next(iter)]: [None] after the last sibling. *)
Definition iter_next (model : TreeStore) (iter : TreeIter)
  : option TreeIter :=
  let next := path_next iter in
  if iter_is_valid model next then Some next else None.

(** The list of rows an iterator moves in: the top level, or the children of
    the parent. *)
Definition siblings (model : TreeStore) (iter : TreeIter) : list row :=
  match removelast iter with
  | [] => model
  | p => match nth_row model p with
         | Some r => children r
         | None => []
         end
  end.

(** How many rows [iter_next] can still reach, the row of the iterator
    included. *)
Definition rows_left (model : TreeStore) (it : option TreeIter) : nat :=
  match it with
  | None => 0
  | Some iter => S (List.length (siblings model iter) - last iter 0)
  end.

(** *** Paths and sibling lists *)

Lemma removelast_path_next (p : TreeIter) :
  removelast (path_next p) = removelast p.
Proof.
  induction p as [|i [|j q] IH]; try reflexivity.
  change (path_next (i :: j :: q)) with (i :: path_next (j :: q)).
  change (removelast (i :: j :: q)) with (i :: removelast (j :: q)).
  rewrite <- IH. simpl. destruct q; reflexivity.
Qed.

Lemma last_path_next (p : TreeIter) :
  p <> [] -> last (path_next p) 0 = S (last p 0).
Proof.
  induction p as [|i [|j q] IH]; intros Hp; try congruence; try reflexivity.
  change (path_next (i :: j :: q)) with (i :: path_next (j :: q)).
  change (last (i :: j :: q) 0) with (last (j :: q) 0).
  rewrite <- IH by discriminate. simpl. destruct q; reflexivity.
Qed.

Lemma siblings_path_next (model : TreeStore) (p : TreeIter) :
  siblings model (path_next p) = siblings model p.
Proof. unfold siblings. rewrite removelast_path_next. reflexivity. Qed.

(** A row is found at the last index of its path, among its siblings. *)
Lemma nth_row_siblings (p : TreeIter) : forall model : TreeStore,
  p <> [] -> nth_row model p = nth_error (siblings model p) (last p 0).
Proof.
  induction p as [|i [|j q] IH]; intros model Hp; try congruence.
  - unfold siblings. simpl. destruct (nth_error model i); reflexivity.
  - change (nth_row model (i :: j :: q))
      with (match nth_error model i with
            | None => None
            | Some r => nth_row (children r) (j :: q)
            end).
    change (last (i :: j :: q) 0) with (last (j :: q) 0).
    unfold siblings at 1.
    change (removelast (i :: j :: q)) with (i :: removelast (j :: q)).
    destruct (nth_error model i) as [r|] eqn:Hi.
    + rewrite IH by discriminate. unfold siblings.
      destruct (removelast (j :: q)) as [|k q'] eqn:Hq.
      * simpl. rewrite Hi. reflexivity.
      * change (nth_row model (i :: k :: q'))
          with (match nth_error model i with
                | None => None
                | Some r => nth_row (children r) (k :: q')
                end).
        rewrite Hi. reflexivity.
    + assert (Hnone : nth_row model (i :: removelast (j :: q)) = None).
      { simpl nth_row. rewrite Hi. reflexivity. }
      rewrite Hnone. destruct (last (j :: q) 0); reflexivity.
Qed.

Lemma nth_row_nil (model : TreeStore) : nth_row model [] = None.
Proof. reflexivity. Qed.

(** [iter_next] moves to fewer remaining rows: the loop over siblings ends. *)
Lemma rows_left_iter_next (model : TreeStore) (it : TreeIter) :
  rows_left model (iter_next model it) < rows_left model (Some it).
Proof.
  unfold iter_next, iter_is_valid.
  destruct (nth_row model (path_next it)) as [r|] eqn:Hnext; simpl; [|lia].
  destruct it as [|i q]; [discriminate|].
  assert (Hne : path_next (i :: q) <> []) by (destruct q; discriminate).
  rewrite (nth_row_siblings _ _ Hne) in Hnext.
  rewrite siblings_path_next in *.
  rewrite last_path_next in * by discriminate.
  assert (S (last (i :: q) 0) < List.length (siblings model (i :: q))).
  { apply nth_error_Some. congruence. }
  lia.
Qed.

End Gtk.

(* ===================================================================== *)
(** ** The window and its callback *)
(* ===================================================================== *)

(** The state the callback can reach through [self], and the output stream
    its [print] writes to. *)
Record BleachBitWindow : Type := {
  search_entry_text : option Py.str;
  treestore_options : TreeStore;
  stdout : list Py.str
}.

(** Computations over the window: [None] is a raised exception. *)
Definition M (A : Type) : Type := BleachBitWindow -> option A * BleachBitWindow.

Definition ret {A} (a : A) : M A := fun w => (Some a, w).

Definition bind {A B} (m : M A) (k : A -> M B) : M B :=
  fun w => match m w with
           | (Some a, w') => k a w'
           | (None, w') => (None, w')
           end.

Notation "x <- m ;; k" := (bind m (fun x => k))
  (at level 61, m at next level, right associativity).
Notation "m ;;; k" := (bind m (fun _ => k))
  (at level 61, right associativity).

(** A call that either yields a value or raises. *)
Definition lift {A} (o : option A) : M A := fun w => (o, w).

(** Reading an attribute of [self]. *)
Definition gets {A} (f : BleachBitWindow -> A) : M A := fun w => (Some (f w), w).

(** [print(line)] *)
Definition print (line : Py.str) : M unit :=
  fun w => (Some tt,
            {| search_entry_text := search_entry_text w;
               treestore_options := treestore_options w;
               stdout := stdout w ++ [line] |}).

(** A method call [v.lower()]: only a [str] has the method. *)
Definition str_lower (ucd : Unicode.database) (v : value) : option Py.str :=
  match v with
  | VStr s => Some (Py.lower ucd s)
  | VBool _ => None
  end.

(** What an f-string writes for a cell value. *)
Definition format_value (v : value) : Py.str :=
  match v with
  | VStr s => s
  | VBool true => Py.text "True"
  | VBool false => Py.text "False"
  end.

(** The test [name.lower().find(self.search_entry_text.lower()) != -1];
    [None] has no method [lower]. *)
Definition lower_find (ucd : Unicode.database) (name : value)
    (text : option Py.str) : option bool :=
  match str_lower ucd name, text with
  | Some low, Some t => Some (negb (Py.find low (Py.lower ucd t) =? -1)%Z)
  | _, _ => None
  end.

(** Lines 163-168: the loop over the children, from [child_iter] on, and the
    final [return False]. *)
Equations? while_child_iter (ucd : Unicode.database) (model : TreeStore)
    (text : option Py.str) (child_iter : option TreeIter) : option bool
    by wf (Gtk.rows_left model child_iter) lt :=
  while_child_iter ucd model text None := Some false;
  while_child_iter ucd model text (Some it) :=
    match Gtk.get_value model it 0 with
    | None => None
    | Some child_name =>
        match lower_find ucd child_name text with
        | None => None
        | Some true => Some true
        | Some false =>
            while_child_iter ucd model text (Gtk.iter_next model it)
        end
    end.
Proof. apply (Gtk.rows_left_iter_next model it). Qed.

(** Lines 136-168. *)
Definition on_search_changed_filter (ucd : Unicode.database)
    (model : TreeStore) (iter : TreeIter) : M bool :=
  current_row <- lift (Gtk.get_value model iter 0) ;;
  text <- gets search_entry_text ;;
  print (Py.text "Search changed filter: " ++ Py.format text
         ++ Py.text " current row: " ++ format_value current_row) ;;;
  if negb (Py.truthy text) then ret true else
  hit <- lift (lower_find ucd current_row text) ;;
  if hit then ret true else
  let children_loop :=
    lift (while_child_iter ucd model text (Gtk.iter_children model iter)) in
  match Gtk.iter_parent model iter with
  | Some parent_iter =>
      parent_name <- lift (Gtk.get_value model parent_iter 0) ;;
      hit <- lift (lower_find ucd parent_name text) ;;
      if hit then ret true else children_loop
  | None => children_loop
  end.

(** The options of [populate_options_pane] (lines 175-186). *)
Definition browser_options : list Py.str :=
  map Py.text ["Cache"; "History"; "Cookies"; "Sessions"; "Passwords"].

Definition sample_data : list (Py.str * list Py.str) :=
  [(Py.text "Firefox", browser_options);
   (Py.text "Chrome", browser_options);
   (Py.text "Edge", browser_options);
   (Py.text "System",
    map Py.text ["Cache"; "Clipboard"; "Custom"; "Logs"; "Temporary files";
                 "Trash"])].

Definition populate_options_pane : TreeStore :=
  map (fun '(parent, kids) =>
         Row parent true (map (fun child => Row child true []) kids))
      sample_data.

(** The filter wrapper [option_filter] (lines 108-109) calls the visible
    function with the store it wraps, [self.treestore_options]. *)
Definition visible_func (ucd : Unicode.database) (iter : TreeIter) : M bool :=
  model <- gets treestore_options ;;
  on_search_changed_filter ucd model iter.

(* ===================================================================== *)
(** ** The vocabulary of the specification *)
(* ===================================================================== *)

(** [s] occurs in [t]. *)
Definition substring_of (s t : Py.str) : Prop :=
  exists pre post, t = pre ++ s ++ post.

(** The lowered [term] occurs in the lowered [label]. *)
Definition lower_contains (ucd : Unicode.database) (label term : Py.str)
  : Prop :=
  substring_of (Py.lower ucd term) (Py.lower ucd label).

(** The parent row of a node: the row one step up its path. *)
Definition parent_row (model : TreeStore) (iter : TreeIter) : option row :=
  Gtk.nth_row model (removelast iter).

(** Every row below a top-level row is a leaf. *)
Definition two_level (model : TreeStore) : Prop :=
  Forall (fun category =>
            Forall (fun item => children item = []) (children category))
         model.

(** Two code points that are equal or the two cases of one letter: one is
    the lower-case mapping of the other. *)
Definition case_pair (ucd : Unicode.database) (a b : N) : Prop :=
  a = b
  \/ Unicode.to_lower_full ucd a = [b]
  \/ Unicode.to_lower_full ucd b = [a].

(** Two terms that differ only in letter case. *)
Definition differ_in_case_only (ucd : Unicode.database) (s t : Py.str)
  : Prop :=
  Forall2 (case_pair ucd) s t.

(** Strings of ASCII characters. *)
Definition ascii_only (s : Py.str) : Prop := Forall (fun c => (c < 128)%N) s.

(** The lower-case mapping of the ASCII characters: A-Z go to a-z, the
    others stay. *)
Definition ascii_lower (c : N) : N :=
  if Unicode.between 65 90 c then (c + 32)%N else c.

(** The database has these entries for the ASCII characters. *)
Definition ascii_entries (ucd : Unicode.database) : Prop :=
  forall c : N, (c < 128)%N -> Unicode.to_lower_full ucd c = [ascii_lower c].

(** Two ASCII characters that are equal or a capital letter and its small
    letter. *)
Definition same_letter (a b : N) : Prop :=
  a = b
  \/ ((65 <= a <= 90)%N /\ b = (a + 32)%N)
  \/ ((65 <= b <= 90)%N /\ a = (b + 32)%N).

(** [label] has a part that is [term] up to the case of its letters. *)
Definition contains_ignoring_case (label term : Py.str) : Prop :=
  exists pre mid post,
    label = pre ++ mid ++ post /\ Forall2 same_letter mid term.

(** Two rows, and two stores, that are the same up to the [enabled] column. *)
Inductive same_but_enabled : row -> row -> Prop :=
| sbe_row l e1 e2 cs1 cs2 :
    Forall2 same_but_enabled cs1 cs2 ->
    same_but_enabled (Row l e1 cs1) (Row l e2 cs2).

Definition stores_same_but_enabled (m1 m2 : TreeStore) : Prop :=
  Forall2 same_but_enabled m1 m2.

(** The boolean test of the callback on two labels. *)
Definition matches (ucd : Unicode.database) (name text : Py.str) : bool :=
  negb (Py.find (Py.lower ucd name) (Py.lower ucd text) =? -1)%Z.

(** The three-way rule, as a boolean. *)
Definition visible_rule (ucd : Unicode.database) (model : TreeStore)
    (iter : TreeIter) (r : row) (text : Py.str) : bool :=
  matches ucd (label r) text
  || match parent_row model iter with
     | Some pr => matches ucd (label pr) text
     | None => false
     end
  || existsb (fun c => matches ucd (label c) text) (children r).

(** The window after the callback printed its line for row [r]. *)
Definition printed (w : BleachBitWindow) (r : row) : BleachBitWindow :=
  {| search_entry_text := search_entry_text w;
     treestore_options := treestore_options w;
     stdout := stdout w
               ++ [Py.text "Search changed filter: "
                   ++ Py.format (search_entry_text w)
                   ++ Py.text " current row: " ++ label r] |}.

(* ===================================================================== *)
(** ** Strings: [find] and [lower] *)
(* ===================================================================== *)

Section StringFacts.

Lemma startswith_split (sub s : Py.str) :
  Py.startswith s sub = true <-> exists post, s = sub ++ post.
Proof.
  revert s. induction sub as [|a sub IH]; intros s.
  - split; [intros _; exists s; reflexivity | intros _; destruct s; reflexivity].
  - destruct s as [|b s]; cbn [Py.startswith].
    + split; [discriminate | intros [post H]; discriminate].
    + rewrite andb_true_iff, N.eqb_eq, IH.
      split.
      * intros [-> [post ->]]. exists post. reflexivity.
      * intros [post H]. injection H as -> ->. eauto.
Qed.

(** [find] answers [-1] exactly when there is no occurrence. *)
Lemma find_from_occurs (s sub : Py.str) : forall i : Z,
  (0 <= i)%Z ->
  (Py.find_from i s sub <> (-1)%Z <-> substring_of sub s).
Proof.
  unfold substring_of.
  induction s as [|c s IH]; intros i Hi; cbn [Py.find_from].
  - destruct (Py.startswith [] sub) eqn:Hp.
    + apply startswith_split in Hp as [post Hp].
      split; [intros _; exists [], post; exact Hp | lia].
    + split; [congruence|]. intros ([|a pre] & post & H).
      * assert (Py.startswith [] sub = true)
          by (apply startswith_split; eauto).
        congruence.
      * discriminate.
  - destruct (Py.startswith (c :: s) sub) eqn:Hp.
    + apply startswith_split in Hp as [post Hp].
      split; [intros _; exists [], post; exact Hp | lia].
    + rewrite (IH (i + 1)%Z) by lia.
      split.
      * intros (pre & post & H). exists (c :: pre), post.
        simpl. congruence.
      * intros ([|a pre] & post & H).
        -- assert (Py.startswith (c :: s) sub = true)
             by (apply startswith_split; eauto).
           congruence.
        -- exists pre, post. simpl in H. congruence.
Qed.

Lemma find_occurs (s sub : Py.str) :
  Py.find s sub <> (-1)%Z <-> substring_of sub s.
Proof. apply find_from_occurs. lia. Qed.

Lemma matches_lower_contains (ucd : Unicode.database) (name text : Py.str) :
  matches ucd name text = true <-> lower_contains ucd name text.
Proof.
  unfold matches, lower_contains. rewrite negb_true_iff, Z.eqb_neq.
  apply find_occurs.
Qed.

Lemma substring_of_trans (s t u : Py.str) :
  substring_of s t -> substring_of t u -> substring_of s u.
Proof.
  intros (p1 & q1 & ->) (p2 & q2 & ->).
  exists (p2 ++ p1), (q1 ++ q2).
  rewrite <- !app_assoc. reflexivity.
Qed.

Lemma substring_of_nil (t : Py.str) : substring_of [] t.
Proof. exists [], t. reflexivity. Qed.

(** *** Lowering ASCII text *)

Lemma ascii_not_sigma (c : N) :
  (c < 128)%N -> (c =? Unicode.capital_sigma)%N = false.
Proof. intros H. apply N.eqb_neq. unfold Unicode.capital_sigma. lia. Qed.

(** On ASCII text [lower] works character by character. *)
Lemma lower_from_ascii (ucd : Unicode.database) (s : Py.str) :
  ascii_entries ucd -> ascii_only s ->
  forall before, Py.lower_from ucd before s = map ascii_lower s.
Proof.
  intros Hucd Hs. induction Hs as [|c s Hc _ IH]; intros before;
    [reflexivity|].
  cbn [Py.lower_from map]. unfold Py.lower_ucs4.
  rewrite (ascii_not_sigma c Hc), (Hucd c Hc), IH. reflexivity.
Qed.

Lemma lower_ascii (ucd : Unicode.database) (s : Py.str) :
  ascii_entries ucd -> ascii_only s -> Py.lower ucd s = map ascii_lower s.
Proof. intros Hucd Hs. apply (lower_from_ascii ucd s Hucd Hs). Qed.

Lemma ascii_lower_same_letter (a b : N) :
  (a < 128)%N -> (b < 128)%N ->
  (ascii_lower a = ascii_lower b <-> same_letter a b).
Proof.
  intros Ha Hb. unfold ascii_lower, same_letter, Unicode.between.
  destruct (N.leb_spec 65 a), (N.leb_spec a 90),
           (N.leb_spec 65 b), (N.leb_spec b 90); cbn [andb]; lia.
Qed.

Lemma map_ascii_lower_same_letter (s t : Py.str) :
  ascii_only s -> ascii_only t ->
  (map ascii_lower s = map ascii_lower t <-> Forall2 same_letter s t).
Proof.
  intros Hs. revert t. induction Hs as [|a s Ha _ IH]; intros t Ht.
  - destruct t; split; intros H; try constructor; try discriminate;
      try reflexivity; inversion H.
  - destruct Ht as [|b t Hb Ht].
    + split; intros H; [discriminate | inversion H].
    + cbn [map]. split.
      * intros H. injection H as H1 H2. constructor.
        -- apply ascii_lower_same_letter; assumption.
        -- apply IH; assumption.
      * intros H. inversion H; subst. f_equal.
        -- apply ascii_lower_same_letter; assumption.
        -- apply IH; assumption.
Qed.

Lemma ascii_only_app (s t : Py.str) :
  ascii_only (s ++ t) <-> ascii_only s /\ ascii_only t.
Proof. apply Forall_app. Qed.

(** On ASCII text the test of the callback is containment up to the case
    of the letters. *)
Lemma lower_contains_ascii (ucd : Unicode.database) (name term : Py.str) :
  ascii_entries ucd -> ascii_only name -> ascii_only term ->
  (lower_contains ucd name term <-> contains_ignoring_case name term).
Proof.
  intros Hucd Hn Ht. unfold lower_contains, substring_of,
    contains_ignoring_case.
  rewrite (lower_ascii ucd name Hucd Hn), (lower_ascii ucd term Hucd Ht).
  split.
  - intros (pre' & post' & H).
    apply map_eq_app in H as (pre & rest & -> & Hpre & H).
    apply map_eq_app in H as (mid & post & -> & Hmid & Hpost).
    exists pre, mid, post. split; [reflexivity|].
    apply ascii_only_app in Hn as [_ Hn].
    apply ascii_only_app in Hn as [Hm _].
    apply map_ascii_lower_same_letter; assumption.
  - intros (pre & mid & post & -> & H).
    apply ascii_only_app in Hn as [_ Hn].
    apply ascii_only_app in Hn as [Hm _].
    apply map_ascii_lower_same_letter in H; [|assumption|assumption].
    exists (map ascii_lower pre), (map ascii_lower post).
    rewrite !map_app, H. reflexivity.
Qed.

(** The entries of the sample database for the ASCII characters. *)
Lemma sample_ascii_entries : ascii_entries Unicode.sample.
Proof.
  intros c Hc. unfold Unicode.sample, ascii_lower, Unicode.between.
  cbn [Unicode.to_lower_full].
  replace (192 <=? c)%N with false by (symmetry; apply N.leb_gt; lia).
  replace (913 <=? c)%N with false by (symmetry; apply N.leb_gt; lia).
  replace (c =? 304)%N with false by (symmetry; apply N.eqb_neq; lia).
  cbn [andb orb]. rewrite !orb_false_r.
  destruct ((65 <=? c)%N && (c <=? 90)%N); reflexivity.
Qed.

End StringFacts.

Example lower_examples :
  Py.lower Unicode.sample (Py.text "Temporary FILES [x]")
  = Py.text "temporary files [x]"
  /\ Py.lower Unicode.sample [913; 931]%N = [945; 962]%N
  /\ Py.lower Unicode.sample [931]%N = [963]%N
  /\ Py.lower Unicode.sample [913; 931; 913]%N = [945; 963; 945]%N
  /\ Py.lower Unicode.sample [913; 931; 46; 32; 913]%N
     = [945; 962; 46; 32; 945]%N
  /\ Py.lower Unicode.sample [945; 963]%N = [945; 963]%N
  /\ Py.lower Unicode.sample [304; 73; 383; 83; 215; 196]%N
     = [105; 775; 105; 383; 115; 215; 228]%N.
Proof. repeat split. Qed.

Example find_lowest_index :
  Py.find (Py.text "cache cache") (Py.text "che") = 2%Z
  /\ Py.find (Py.text "cache") [] = 0%Z
  /\ Py.find [] [] = 0%Z
  /\ Py.find (Py.text "cache") (Py.text "cachet") = (-1)%Z.
Proof. repeat split. Qed.
(* ===================================================================== *)
(** ** Moving through the store *)
(* ===================================================================== *)

Section Navigation.

Variable ucd : Unicode.database.
Variable model : TreeStore.

Lemma path_next_snoc (p : TreeIter) (k : nat) :
  Gtk.path_next (p ++ [k]) = p ++ [S k].
Proof.
  induction p as [|i p IH]; [reflexivity|].
  simpl. rewrite IH. destruct (p ++ [k]) eqn:E; [|reflexivity].
  destruct p; discriminate.
Qed.

(** The children of a row are found one step below its path. *)
Lemma nth_row_child (iter : TreeIter) (r : row) (k : nat) :
  Gtk.nth_row model iter = Some r ->
  Gtk.nth_row model (iter ++ [k]) = nth_error (children r) k.
Proof.
  intros Hr.
  rewrite Gtk.nth_row_siblings by (destruct iter; discriminate).
  rewrite last_last. unfold Gtk.siblings. rewrite removelast_last.
  destruct iter as [|i q]; [discriminate|]. rewrite Hr. reflexivity.
Qed.

(** A row below the top level has its parent one step up. *)
Lemma nth_row_parent (iter : TreeIter) (r : row) :
  Gtk.nth_row model iter = Some r ->
  removelast iter <> [] ->
  exists pr, parent_row model iter = Some pr /\ In r (children pr).
Proof.
  intros Hr Hp. unfold parent_row.
  assert (Hne : iter <> []) by (intros ->; discriminate).
  rewrite (Gtk.nth_row_siblings _ _ Hne) in Hr.
  unfold Gtk.siblings in Hr.
  destruct (removelast iter) as [|i q] eqn:E; [congruence|].
  destruct (Gtk.nth_row model (i :: q)) as [pr|].
  - exists pr. split; [reflexivity|]. eapply nth_error_In, Hr.
  - destruct (last iter 0); discriminate.
Qed.

Lemma get_value_label (iter : TreeIter) (r : row) :
  Gtk.nth_row model iter = Some r ->
  Gtk.get_value model iter 0 = Some (VStr (label r)).
Proof. intros H. unfold Gtk.get_value. rewrite H. reflexivity. Qed.

Lemma iter_children_row (iter : TreeIter) (r : row) :
  Gtk.nth_row model iter = Some r ->
  Gtk.iter_children model iter
  = match children r with [] => None | _ :: _ => Some (iter ++ [0]) end.
Proof.
  intros Hr. unfold Gtk.iter_children, Gtk.iter_is_valid.
  rewrite (nth_row_child _ _ 0 Hr). destruct (children r); reflexivity.
Qed.

Lemma iter_next_child (iter : TreeIter) (r : row) (k : nat) :
  Gtk.nth_row model iter = Some r ->
  Gtk.iter_next model (iter ++ [k])
  = if (S k <? List.length (children r))%nat then Some (iter ++ [S k]) else None.
Proof.
  intros Hr. unfold Gtk.iter_next, Gtk.iter_is_valid.
  rewrite path_next_snoc, (nth_row_child _ _ (S k) Hr).
  destruct (S k <? List.length (children r))%nat eqn:E.
  - apply Nat.ltb_lt, nth_error_Some in E.
    destruct (nth_error (children r) (S k)); [reflexivity | congruence].
  - apply Nat.ltb_ge, nth_error_None in E. rewrite E. reflexivity.
Qed.

Lemma iter_parent_row (iter : TreeIter) (r : row) :
  Gtk.nth_row model iter = Some r ->
  Gtk.iter_parent model iter
  = match removelast iter with [] => None | p => Some p end.
Proof.
  intros Hr. unfold Gtk.iter_parent, Gtk.iter_is_valid. rewrite Hr.
  reflexivity.
Qed.

(** The loop, started at child [k], looks at the children from [k] on. *)
Lemma while_child_iter_from (text : Py.str) (iter : TreeIter) (r : row) :
  Gtk.nth_row model iter = Some r ->
  forall n k : nat,
    List.length (children r) - k = n ->
    k < List.length (children r) ->
    while_child_iter ucd model (Some text) (Some (iter ++ [k]))
    = Some (existsb (fun c => matches ucd (label c) text)
                    (skipn k (children r))).
Proof.
  intros Hr. induction n as [|n IH]; intros k Hn Hk; [lia|].
  rewrite while_child_iter_equation_1.
  destruct (nth_error (children r) k) as [c|] eqn:Hc;
    [|apply nth_error_None in Hc; lia].
  assert (Hrow : Gtk.nth_row model (iter ++ [k]) = Some c)
    by (rewrite (nth_row_child _ _ k Hr); exact Hc).
  rewrite (get_value_label _ _ Hrow).
  assert (Hskip : skipn k (children r) = c :: skipn (S k) (children r)).
  { clear - Hc. revert k Hc. induction (children r) as [|x l IHl];
      intros [|k] Hc; simpl in *; try discriminate.
    - congruence.
    - apply IHl, Hc. }
  rewrite Hskip. cbn [existsb lower_find str_lower].
  fold (matches ucd (label c) text).
  destruct (matches ucd (label c) text); [reflexivity|]. cbn [orb].
  rewrite (iter_next_child _ _ k Hr).
  destruct (S k <? List.length (children r))%nat eqn:E.
  - apply Nat.ltb_lt in E. apply IH; lia.
  - apply Nat.ltb_ge in E. rewrite while_child_iter_equation_2.
    rewrite skipn_all2 by lia. reflexivity.
Qed.

(** The loop of lines 162-168 on a valid row: is there a matching child? *)
Lemma while_child_iter_children (text : Py.str) (iter : TreeIter) (r : row) :
  Gtk.nth_row model iter = Some r ->
  while_child_iter ucd model (Some text) (Gtk.iter_children model iter)
  = Some (existsb (fun c => matches ucd (label c) text) (children r)).
Proof.
  intros Hr. rewrite (iter_children_row _ _ Hr).
  destruct (children r) as [|c cs] eqn:Hcs.
  - rewrite while_child_iter_equation_2. reflexivity.
  - rewrite <- Hcs.
    rewrite (while_child_iter_from text _ _ Hr (List.length (children r)) 0);
      [reflexivity | lia | rewrite Hcs; simpl; lia].
Qed.

End Navigation.

(* ===================================================================== *)
(** ** What the callback computes *)
(* ===================================================================== *)

(** The answer for row [r] at [iter], given the search text. *)
Definition answer (ucd : Unicode.database) (model : TreeStore)
    (iter : TreeIter) (r : row) (text : option Py.str) : bool :=
  match text with
  | None => true
  | Some t => if Py.truthy text then visible_rule ucd model iter r t else true
  end.

Section Callback.

Variable ucd : Unicode.database.
Variable model : TreeStore.

(** On a row of the store the callback prints one line and returns the
    answer; it raises nothing. *)
Lemma on_search_changed_filter_row (iter : TreeIter) (r : row)
    (w : BleachBitWindow) :
  Gtk.nth_row model iter = Some r ->
  on_search_changed_filter ucd model iter w
  = (Some (answer ucd model iter r (search_entry_text w)), printed w r).
Proof.
  intros Hr. unfold on_search_changed_filter, bind, lift, gets, print, ret.
  rewrite (get_value_label _ _ _ Hr). cbn [format_value].
  unfold answer, printed. cbn [search_entry_text].
  destruct (search_entry_text w) as [text|]; [|reflexivity].
  destruct (Py.truthy (Some text)); cbn [negb]; [|reflexivity].
  cbn iota.
  unfold visible_rule. cbn [lower_find str_lower].
  fold (matches ucd (label r) text).
  destruct (matches ucd (label r) text); [reflexivity|]. cbn [orb].
  rewrite (iter_parent_row _ _ _ Hr), (while_child_iter_children _ _ _ _ _ Hr).
  destruct (removelast iter) as [|i q] eqn:Hp.
  - unfold parent_row. rewrite Hp. reflexivity.
  - destruct (nth_row_parent model iter r Hr) as (pr & Hpr & _);
      [congruence|].
    rewrite Hpr. unfold parent_row in Hpr. rewrite Hp in Hpr.
    rewrite (get_value_label _ _ _ Hpr). cbn [lower_find str_lower].
    fold (matches ucd (label pr) text).
    destruct (matches ucd (label pr) text); reflexivity.
Qed.

(** On an iterator that designates no row the first [get_value] fails. *)
Lemma on_search_changed_filter_stale (iter : TreeIter) (w : BleachBitWindow) :
  Gtk.nth_row model iter = None ->
  on_search_changed_filter ucd model iter w = (None, w).
Proof.
  intros Hr. unfold on_search_changed_filter, bind, lift, Gtk.get_value.
  rewrite Hr. reflexivity.
Qed.

End Callback.

Lemma visible_func_row (ucd : Unicode.database) (iter : TreeIter) (r : row)
    (w : BleachBitWindow) :
  Gtk.nth_row (treestore_options w) iter = Some r ->
  visible_func ucd iter w
  = (Some (answer ucd (treestore_options w) iter r (search_entry_text w)),
     printed w r).
Proof.
  intros Hr. unfold visible_func, bind, gets.
  apply on_search_changed_filter_row, Hr.
Qed.

Lemma visible_func_stale (ucd : Unicode.database) (iter : TreeIter)
    (w : BleachBitWindow) :
  Gtk.nth_row (treestore_options w) iter = None ->
  visible_func ucd iter w = (None, w).
Proof.
  intros Hr. unfold visible_func, bind, gets.
  apply on_search_changed_filter_stale, Hr.
Qed.

Lemma visible_rule_spec (ucd : Unicode.database) (model : TreeStore)
    (iter : TreeIter) (r : row) (term : Py.str) :
  visible_rule ucd model iter r term = true <->
  lower_contains ucd (label r) term
  \/ (exists pr, parent_row model iter = Some pr /\ lower_contains ucd (label pr) term)
  \/ (exists c, In c (children r) /\ lower_contains ucd (label c) term).
Proof.
  unfold visible_rule. rewrite !orb_true_iff, existsb_exists, <- or_assoc.
  rewrite matches_lower_contains.
  assert (Hpar : match parent_row model iter with
                 | Some pr => matches ucd (label pr) term
                 | None => false
                 end = true
                 <-> exists pr, parent_row model iter = Some pr
                                /\ lower_contains ucd (label pr) term).
  { destruct (parent_row model iter) as [pr|].
    - rewrite matches_lower_contains. split; [eauto|].
      intros (pr' & [= <-] & H). exact H.
    - split; [discriminate | intros (pr' & [=] & _)]. }
  rewrite Hpar.
  assert (Hch : (exists c, In c (children r) /\ matches ucd (label c) term = true)
                <-> exists c, In c (children r) /\ lower_contains ucd (label c) term).
  { split; intros (c & Hin & H); exists c; split; auto;
      apply matches_lower_contains; exact H. }
  rewrite Hch. reflexivity.
Qed.

(* ===================================================================== *)
(** ** The filter as a function of tree, node and term *)
(* ===================================================================== *)

(** [is_visible(node, search_term)]: the callback's answer for the node at
    [iter] of [model] when the search box holds [search_term]. *)
Definition is_visible (ucd : Unicode.database) (model : TreeStore)
    (iter : TreeIter) (search_term : Py.str) : option bool :=
  fst (visible_func ucd iter {| search_entry_text := Some search_term;
                                treestore_options := model;
                                stdout := [] |}).

(** A row without children. *)
Definition leaf (name : string) (flag : bool) : row :=
  Row (Py.text name) flag [].

(** The tree of the specification's examples, with a childless category. *)
Definition example_store : TreeStore :=
  [ Row (Py.text "Firefox") true [leaf "Cache" true; leaf "History" false];
    Row (Py.text "System") true [leaf "Logs" true];
    leaf "System" false ].

(** The same tree with other check marks. *)
Definition example_store_unchecked : TreeStore :=
  [ Row (Py.text "Firefox") false [leaf "Cache" false; leaf "History" true];
    Row (Py.text "System") false [leaf "Logs" false];
    leaf "System" true ].

(** A tree with Greek labels: a category Chi with the item Alpha Sigma, and
    the childless categories Alpha Sigma and Alpha Sigma Alpha. *)
Definition greek_store : TreeStore :=
  [ Row [935]%N true [Row [913; 931]%N true []];
    Row [913; 931]%N true [];
    Row [913; 931; 913]%N true [] ].

Lemma is_visible_row (ucd : Unicode.database) (model : TreeStore)
    (iter : TreeIter) (r : row) (term : Py.str) :
  Gtk.nth_row model iter = Some r ->
  is_visible ucd model iter term = Some (answer ucd model iter r (Some term)).
Proof.
  intros Hr. unfold is_visible.
  rewrite (visible_func_row ucd iter r) by exact Hr. reflexivity.
Qed.

Lemma is_visible_stale (ucd : Unicode.database) (model : TreeStore)
    (iter : TreeIter) (term : Py.str) :
  Gtk.nth_row model iter = None -> is_visible ucd model iter term = None.
Proof.
  intros Hr. unfold is_visible.
  rewrite visible_func_stale by exact Hr. reflexivity.
Qed.

Lemma truthy_nonempty (term : Py.str) :
  term <> [] -> Py.truthy (Some term) = true.
Proof. destruct term; [congruence | reflexivity]. Qed.

(** The answer for a non-empty term, stated with the three tests. *)
Lemma visible_iff_self_parent_or_child_aux (ucd : Unicode.database)
    (model : TreeStore) (iter : TreeIter) (r : row) (term : Py.str) :
  Gtk.nth_row model iter = Some r ->
  term <> [] ->
  exists b : bool,
    is_visible ucd model iter term = Some b
    /\ (b = true <->
        lower_contains ucd (label r) term
        \/ (exists pr, parent_row model iter = Some pr
                       /\ lower_contains ucd (label pr) term)
        \/ (exists c, In c (children r) /\ lower_contains ucd (label c) term)).
Proof.
  intros Hr Hterm. rewrite (is_visible_row _ _ _ _ _ Hr).
  eexists. split; [reflexivity|].
  unfold answer. rewrite (truthy_nonempty _ Hterm).
  apply visible_rule_spec.
Qed.

(** The examples of the specification. *)
Example search_fire :
  map (fun it => is_visible Unicode.sample example_store it (Py.text "fire"))
      [[0]; [0; 0]; [0; 1]; [1]; [1; 0]]
  = [Some true; Some true; Some true; Some false; Some false].
Proof. vm_compute. reflexivity. Qed.

Example search_cache :
  map (fun it => is_visible Unicode.sample example_store it (Py.text "cache"))
      [[0]; [0; 0]; [0; 1]; [1]; [1; 0]]
  = [Some true; Some true; Some false; Some false; Some false].
Proof. vm_compute. reflexivity. Qed.

Example search_zzz :
  map (fun it => is_visible Unicode.sample example_store it (Py.text "zzz"))
      [[0]; [0; 0]; [0; 1]; [1]; [1; 0]; [2]]
  = [Some false; Some false; Some false; Some false; Some false; Some false].
Proof. vm_compute. reflexivity. Qed.

Example search_childless :
  is_visible Unicode.sample example_store [2] (Py.text "sys") = Some true
  /\ is_visible Unicode.sample example_store [2] (Py.text "xyz") = Some false.
Proof. vm_compute. split; reflexivity. Qed.

(** The docstring's example on the shipped options: searching for "cookie"
    shows Cookies and its parent and hides Cache. *)
Example search_cookie :
  map (fun it => is_visible Unicode.sample populate_options_pane it
                   (Py.text "cookie"))
      [[0]; [0; 2]; [0; 0]; [3]; [3; 1]]
  = [Some true; Some true; Some false; Some false; Some false].
Proof. vm_compute. reflexivity. Qed.

(** On the shipped options, the capital S shows System and the long s,
    whose capital is S, hides it. *)
Example search_long_s :
  is_visible Unicode.sample populate_options_pane [3] [83]%N = Some true
  /\ is_visible Unicode.sample populate_options_pane [3] [383]%N = Some false.
Proof. vm_compute. split; reflexivity. Qed.

Example search_prints_line :
  stdout (snd (visible_func Unicode.sample [0; 0]
                 {| search_entry_text := None;
                    treestore_options := example_store;
                    stdout := [] |}))
  = [Py.text "Search changed filter: None current row: Cache"].
Proof. vm_compute. reflexivity. Qed.

(* ===================================================================== *)
(** ** Properties of the filter *)
(* ===================================================================== *)

(** C1: the claim fails on the code.  In [greek_store] the item Alpha Sigma
    below Chi has a label that contains the term Sigma as it is written,
    so also without regard to case, and the callback answers that the item
    is not visible: [lower] turns the label's sigma into the final sigma
    and the term's into the medial one. *)
Theorem item_whose_label_contains_the_term_is_hidden :
  Gtk.get_value greek_store [0; 0] 0 = Some (VStr [913; 931]%N)
  /\ substring_of [931]%N [913; 931]%N
  /\ is_visible Unicode.sample greek_store [0; 0] [931]%N = Some false.
Proof.
  split; [reflexivity|]. split; [exists [913]%N, []; reflexivity|].
  vm_compute. reflexivity.
Qed.

(** C2: when the search text is empty (the empty string, or [None] before
    anything was typed) every node of the tree is visible, whatever was
    printed before. *)
Theorem empty_term_shows_every_row (ucd : Unicode.database)
    (iter : TreeIter) (w : BleachBitWindow) :
  Gtk.iter_is_valid (treestore_options w) iter = true ->
  search_entry_text w = Some [] \/ search_entry_text w = None ->
  fst (visible_func ucd iter w) = Some true.
Proof.
  unfold Gtk.iter_is_valid. intros Hv Hempty.
  destruct (Gtk.nth_row (treestore_options w) iter) as [r|] eqn:Hr;
    [|discriminate].
  rewrite (visible_func_row ucd iter r w Hr). cbn [fst]. f_equal.
  destruct Hempty as [-> | ->]; reflexivity.
Qed.

Lemma empty_term_shows_every_row_witness :
  is_visible Unicode.sample example_store [1; 0] [] = Some true.
Proof.
  apply (empty_term_shows_every_row Unicode.sample [1; 0]
           {| search_entry_text := Some [];
              treestore_options := example_store;
              stdout := [] |}).
  - reflexivity.
  - left. reflexivity.
Defined.

(** C3: the claim fails on the code.  The terms Alpha Sigma and alpha sigma
    differ only in letter case (each letter of the second is the lower-case
    mapping of the letter of the first), and on the row Alpha Sigma Alpha
    the callback answers false for the first and true for the second. *)
Theorem terms_differing_in_case_get_different_answers :
  differ_in_case_only Unicode.sample [913; 931]%N [945; 963]%N
  /\ is_visible Unicode.sample greek_store [2] [913; 931]%N = Some false
  /\ is_visible Unicode.sample greek_store [2] [945; 963]%N = Some true.
Proof.
  split.
  - repeat constructor; right; left; reflexivity.
  - vm_compute. split; reflexivity.
Qed.

(** C4: the claim fails on the code.  The childless category Alpha Sigma
    of [greek_store] has a label that contains the term Sigma, and the
    callback answers that it is not visible. *)
Theorem childless_category_containing_the_term_is_hidden :
  Gtk.nth_row greek_store [1] = Some (Row [913; 931]%N true [])
  /\ substring_of [931]%N [913; 931]%N
  /\ is_visible Unicode.sample greek_store [1] [931]%N = Some false.
Proof.
  split; [reflexivity|]. split; [exists [913]%N, []; reflexivity|].
  vm_compute. reflexivity.
Qed.

(** *** Stores that differ in the [enabled] column only *)

Lemma same_but_enabled_label (r1 r2 : row) :
  same_but_enabled r1 r2 -> label r1 = label r2.
Proof. destruct 1; reflexivity. Qed.

Lemma same_but_enabled_children (r1 r2 : row) :
  same_but_enabled r1 r2 ->
  stores_same_but_enabled (children r1) (children r2).
Proof. destruct 1; assumption. Qed.

(** A relation lifted to optional rows. *)
Definition both_or_neither (o1 o2 : option row) : Prop :=
  match o1, o2 with
  | Some r1, Some r2 => same_but_enabled r1 r2
  | None, None => True
  | _, _ => False
  end.

Lemma nth_error_same_but_enabled (m1 m2 : TreeStore) :
  stores_same_but_enabled m1 m2 ->
  forall i, both_or_neither (nth_error m1 i) (nth_error m2 i).
Proof.
  induction 1 as [|r1 r2 l1 l2 Hr _ IH]; intros [|i]; simpl; auto.
Qed.

Lemma nth_row_same_but_enabled (path : TreeIter) : forall m1 m2 : TreeStore,
  stores_same_but_enabled m1 m2 ->
  both_or_neither (Gtk.nth_row m1 path) (Gtk.nth_row m2 path).
Proof.
  induction path as [|i rest IH]; intros m1 m2 Hm; [exact I|].
  cbn [Gtk.nth_row].
  pose proof (nth_error_same_but_enabled _ _ Hm i) as Hi.
  destruct (nth_error m1 i) as [r1|], (nth_error m2 i) as [r2|];
    simpl in Hi; try contradiction; [|exact I].
  destruct rest as [|j rest]; [exact Hi|].
  apply IH, same_but_enabled_children, Hi.
Qed.

Lemma existsb_same_but_enabled (ucd : Unicode.database) (text : Py.str)
    (l1 l2 : list row) :
  stores_same_but_enabled l1 l2 ->
  existsb (fun c => matches ucd (label c) text) l1
  = existsb (fun c => matches ucd (label c) text) l2.
Proof.
  induction 1 as [|r1 r2 l1 l2 Hr _ IH]; simpl; [reflexivity|].
  rewrite (same_but_enabled_label _ _ Hr), IH. reflexivity.
Qed.

(** C5: the answer does not depend on the [enabled] flags: on two trees
    that are the same except for these flags, every node gets the same
    answer for every term. *)
Theorem enabled_flags_do_not_influence_visibility (ucd : Unicode.database)
    (m1 m2 : TreeStore) (iter : TreeIter) (term : Py.str) :
  stores_same_but_enabled m1 m2 ->
  is_visible ucd m1 iter term = is_visible ucd m2 iter term.
Proof.
  intros Hm.
  pose proof (nth_row_same_but_enabled iter _ _ Hm) as Hrow.
  pose proof (nth_row_same_but_enabled (removelast iter) _ _ Hm) as Hpar.
  destruct (Gtk.nth_row m1 iter) as [r1|] eqn:H1,
           (Gtk.nth_row m2 iter) as [r2|] eqn:H2;
    simpl in Hrow; try contradiction.
  - rewrite (is_visible_row _ _ _ _ _ H1), (is_visible_row _ _ _ _ _ H2).
    f_equal. unfold answer. destruct (Py.truthy (Some term)); [|reflexivity].
    unfold visible_rule, parent_row.
    rewrite (same_but_enabled_label _ _ Hrow).
    rewrite (existsb_same_but_enabled ucd term _ _
               (same_but_enabled_children _ _ Hrow)).
    destruct (Gtk.nth_row m1 (removelast iter)) as [p1|],
             (Gtk.nth_row m2 (removelast iter)) as [p2|];
      simpl in Hpar; try contradiction; [|reflexivity].
    rewrite (same_but_enabled_label _ _ Hpar). reflexivity.
  - rewrite (is_visible_stale _ _ _ _ H1), (is_visible_stale _ _ _ _ H2).
    reflexivity.
Qed.

Lemma enabled_flags_do_not_influence_visibility_witness :
  is_visible Unicode.sample example_store [0; 0] (Py.text "fox")
  = is_visible Unicode.sample example_store_unchecked [0; 0] (Py.text "fox").
Proof.
  apply enabled_flags_do_not_influence_visibility.
  repeat constructor.
Defined.

(** C6: the answer is a function of the tree, the node and the search text
    alone: what was printed before has no influence on it, and asking again
    in the window left by a first call gives the same answer. *)
Theorem answer_depends_on_tree_node_term_only (ucd : Unicode.database)
    (model : TreeStore) (text : option Py.str) (iter : TreeIter) :
  (forall out1 out2 : list Py.str,
      fst (visible_func ucd iter {| search_entry_text := text;
                                treestore_options := model;
                                stdout := out1 |})
      = fst (visible_func ucd iter {| search_entry_text := text;
                                  treestore_options := model;
                                  stdout := out2 |}))
  /\ (forall w : BleachBitWindow,
         fst (visible_func ucd iter (snd (visible_func ucd iter w)))
         = fst (visible_func ucd iter w)).
Proof.
  split.
  - intros out1 out2.
    destruct (Gtk.nth_row model iter) as [r|] eqn:Hr.
    + rewrite !(visible_func_row ucd iter r) by exact Hr. reflexivity.
    + rewrite !visible_func_stale by exact Hr. reflexivity.
  - intros w.
    destruct (Gtk.nth_row (treestore_options w) iter) as [r|] eqn:Hr.
    + rewrite (visible_func_row ucd iter r w Hr). cbn [fst snd].
      rewrite (visible_func_row ucd iter r (printed w r)) by exact Hr.
      reflexivity.
    + rewrite (visible_func_stale ucd iter w Hr). cbn [fst snd].
      rewrite (visible_func_stale ucd iter w Hr). reflexivity.
Qed.

(** C7: a call leaves the tree as it was: the store (every label, flag,
    child list and so every parent link) is the same after the call, and so
    is the search text. *)
Theorem callback_leaves_tree_unchanged (ucd : Unicode.database)
    (iter : TreeIter) (w : BleachBitWindow) :
  treestore_options (snd (visible_func ucd iter w)) = treestore_options w
  /\ search_entry_text (snd (visible_func ucd iter w)) = search_entry_text w.
Proof.
  destruct (Gtk.nth_row (treestore_options w) iter) as [r|] eqn:Hr.
  - rewrite (visible_func_row ucd iter r w Hr). split; reflexivity.
  - rewrite (visible_func_stale ucd iter w Hr). split; reflexivity.
Qed.

(** C8: on every node of a tree and for every search text, the empty one
    included, the callback returns a boolean and raises nothing.  (That it
    returns at all is the totality of [while_child_iter], defined by
    recursion on the rows left to visit.) *)
Theorem is_visible_total (ucd : Unicode.database) (iter : TreeIter)
    (w : BleachBitWindow) :
  Gtk.iter_is_valid (treestore_options w) iter = true ->
  exists b : bool, fst (visible_func ucd iter w) = Some b.
Proof.
  unfold Gtk.iter_is_valid. intros Hv.
  destruct (Gtk.nth_row (treestore_options w) iter) as [r|] eqn:Hr;
    [|discriminate].
  rewrite (visible_func_row ucd iter r w Hr). eexists. reflexivity.
Qed.

Lemma is_visible_total_witness :
  exists b : bool,
    is_visible Unicode.sample example_store [1; 0] (Py.text "lo") = Some b.
Proof.
  apply (is_visible_total Unicode.sample [1; 0]
           {| search_entry_text := Some (Py.text "lo");
              treestore_options := example_store;
              stdout := [] |}).
  reflexivity.
Defined.

(** *** Two-level trees *)

(** In a two-level tree the rows below the top level have no children. *)
Lemma two_level_item_is_leaf (model : TreeStore) (i j : nat)
    (rest : TreeIter) (r : row) :
  two_level model ->
  Gtk.nth_row model (i :: j :: rest) = Some r ->
  children r = [].
Proof.
  intros Htwo Hr. cbn [Gtk.nth_row] in Hr.
  destruct (nth_error model i) as [cat|] eqn:Hi; [|discriminate].
  destruct (nth_error (children cat) j) as [item|] eqn:Hj; [|discriminate].
  assert (Hleaf : children item = []).
  { unfold two_level in Htwo. rewrite Forall_forall in Htwo.
    pose proof (Htwo cat (nth_error_In _ _ Hi)) as Hcat.
    rewrite Forall_forall in Hcat. apply Hcat. eapply nth_error_In, Hj. }
  destruct rest as [|k rest]; [congruence|].
  rewrite Hleaf in Hr. destruct k; discriminate.
Qed.

Lemma removelast_nonempty (iter : TreeIter) :
  removelast iter <> [] -> exists i j rest, iter = i :: j :: rest.
Proof.
  destruct iter as [|i [|j rest]]; simpl; try congruence. eauto.
Qed.

(** C9: in a two-level tree a visible row below the top level has a
    visible parent: the filtered view never shows an item whose category
    is hidden. *)
Theorem visible_item_has_visible_category (ucd : Unicode.database)
    (model : TreeStore) (iter parent_iter : TreeIter) (term : Py.str) :
  two_level model ->
  Gtk.iter_parent model iter = Some parent_iter ->
  is_visible ucd model iter term = Some true ->
  is_visible ucd model parent_iter term = Some true.
Proof.
  intros Htwo Hparent Hvis.
  destruct (Gtk.nth_row model iter) as [r|] eqn:Hr;
    [|rewrite (is_visible_stale _ _ _ _ Hr) in Hvis; discriminate].
  rewrite (iter_parent_row _ _ _ Hr) in Hparent.
  assert (Hup : removelast iter = parent_iter /\ removelast iter <> []).
  { destruct (removelast iter); [discriminate|].
    split; [congruence | discriminate]. }
  destruct Hup as [<- Hne].
  destruct (nth_row_parent model iter r Hr Hne) as (pr & Hpr & Hin).
  rewrite (is_visible_row _ _ _ _ _ Hr) in Hvis.
  rewrite (is_visible_row ucd model (removelast iter) pr) by exact Hpr.
  f_equal. injection Hvis as Hvis. unfold answer in *.
  destruct term as [|a term]; [reflexivity|]. cbn [Py.truthy] in *.
  destruct (removelast_nonempty iter Hne) as (i & j & rest & E).
  assert (Hleaf : children r = [])
    by (apply (two_level_item_is_leaf model i j rest); congruence).
  unfold visible_rule in *. rewrite Hpr, Hleaf in Hvis. cbn [existsb] in Hvis.
  rewrite orb_false_r in Hvis. apply orb_true_iff in Hvis as [Hself | Hcat].
  - rewrite !orb_true_iff. right. apply existsb_exists. eauto.
  - rewrite Hcat. reflexivity.
Qed.

Lemma visible_item_has_visible_category_witness :
  is_visible Unicode.sample example_store [0] (Py.text "cache") = Some true.
Proof.
  apply (visible_item_has_visible_category Unicode.sample example_store
           [0; 0] [0] (Py.text "cache")).
  - repeat constructor.
  - reflexivity.
  - reflexivity.
Defined.

(** *** Longer and shorter terms *)


(* ===================================================================== *)
(** ** The filter as its docstring describes it *)
(* ===================================================================== *)

Lemma answer_of_match (ucd : Unicode.database) (model : TreeStore)
    (iter : TreeIter) (r : row) (term : Py.str) :
  visible_rule ucd model iter r term = true ->
  answer ucd model iter r (Some term) = true.
Proof. intros H. unfold answer. rewrite H. destruct (Py.truthy _); reflexivity. Qed.

(** X1 (docstring, line 145): when the test of the callback succeeds on a
    row (its lowered label holds the lowered search text), that row and
    all its children are shown, whatever the children are called. *)
Theorem matching_row_shows_all_its_children (ucd : Unicode.database)
    (model : TreeStore) (iter : TreeIter) (r : row) (term : Py.str) :
  Gtk.nth_row model iter = Some r ->
  lower_contains ucd (label r) term ->
  is_visible ucd model iter term = Some true
  /\ forall k c, nth_error (children r) k = Some c ->
                 is_visible ucd model (iter ++ [k]) term = Some true.
Proof.
  intros Hr Hm. apply matches_lower_contains in Hm. split.
  - rewrite (is_visible_row _ _ _ _ _ Hr). f_equal. apply answer_of_match.
    unfold visible_rule. rewrite Hm. reflexivity.
  - intros k c Hc.
    assert (Hrow : Gtk.nth_row model (iter ++ [k]) = Some c)
      by (rewrite (nth_row_child _ _ _ k Hr); exact Hc).
    rewrite (is_visible_row _ _ _ _ _ Hrow). f_equal. apply answer_of_match.
    unfold visible_rule, parent_row. rewrite removelast_last, Hr, Hm.
    apply orb_true_iff. left. apply orb_true_r.
Qed.

Lemma matching_row_shows_all_its_children_witness :
  is_visible Unicode.sample example_store [0] (Py.text "FIRE") = Some true
  /\ forall k c,
       nth_error [leaf "Cache" true; leaf "History" false] k = Some c ->
       is_visible Unicode.sample example_store ([0] ++ [k]) (Py.text "FIRE")
       = Some true.
Proof.
  apply (matching_row_shows_all_its_children Unicode.sample example_store [0]
           (Row (Py.text "Firefox") true
                [leaf "Cache" true; leaf "History" false])
           (Py.text "FIRE")).
  - reflexivity.
  - exists [], (Py.text "fox"). reflexivity.
Defined.

(** X2 (docstring, line 144): in a two-level tree, under a category on
    which the test of the callback fails for the non-empty search text,
    each item is shown exactly when the test succeeds on its own label (its
    brothers on which it fails are hidden), and the category is shown
    exactly when the test succeeds on one of its items. *)
Theorem items_filtered_one_by_one (ucd : Unicode.database)
    (model : TreeStore) (i : nat) (cat : row) (term : Py.str) :
  two_level model ->
  Gtk.nth_row model [i] = Some cat ->
  term <> [] ->
  ~ lower_contains ucd (label cat) term ->
  (forall k item,
      nth_error (children cat) k = Some item ->
      exists b : bool,
        is_visible ucd model [i; k] term = Some b
        /\ (b = true <-> lower_contains ucd (label item) term))
  /\ (exists b : bool,
         is_visible ucd model [i] term = Some b
         /\ (b = true <->
             exists item, In item (children cat)
                          /\ lower_contains ucd (label item) term)).
Proof.
  intros Htwo Hcat Hterm Hno. split.
  - intros k item Hitem.
    assert (Hrow : Gtk.nth_row model ([i] ++ [k]) = Some item)
      by (rewrite (nth_row_child _ _ _ k Hcat); exact Hitem).
    cbn [app] in Hrow.
    destruct (visible_iff_self_parent_or_child_aux ucd model [i; k] item term
                Hrow Hterm) as (b & Hb & Hiff).
    exists b. split; [exact Hb|]. rewrite Hiff.
    rewrite (two_level_item_is_leaf model i k [] item Htwo Hrow).
    unfold parent_row. cbn [removelast]. rewrite Hcat.
    split; [|auto].
    intros [H | [(pr & [= <-] & H) | (c & [] & _)]]; [exact H | contradiction].
  - destruct (visible_iff_self_parent_or_child_aux ucd model [i] cat term
                Hcat Hterm) as (b & Hb & Hiff).
    exists b. split; [exact Hb|]. rewrite Hiff.
    split; [|auto].
    intros [H | [(pr & Hp & _) | H]]; [contradiction | discriminate | exact H].
Qed.

Lemma items_filtered_one_by_one_witness :
  (forall k item,
      nth_error [leaf "Cache" true; leaf "History" false] k = Some item ->
      exists b : bool,
        is_visible Unicode.sample example_store [0; k] (Py.text "HIS") = Some b
        /\ (b = true
            <-> lower_contains Unicode.sample (label item) (Py.text "HIS")))
  /\ (exists b : bool,
         is_visible Unicode.sample example_store [0] (Py.text "HIS") = Some b
         /\ (b = true <->
             exists item,
               In item [leaf "Cache" true; leaf "History" false]
               /\ lower_contains Unicode.sample (label item) (Py.text "HIS"))).
Proof.
  apply (items_filtered_one_by_one Unicode.sample example_store 0
           (Row (Py.text "Firefox") true
                [leaf "Cache" true; leaf "History" false])
           (Py.text "HIS")).
  - repeat constructor.
  - reflexivity.
  - discriminate.
  - intros H. apply matches_lower_contains in H. discriminate.
Defined.

(** X3 (lines 148-150): every call on a row of the store writes one line
    to standard output, naming the search text and the row, also when the
    search text is empty; what was written before stays. *)
Theorem callback_prints_one_line (ucd : Unicode.database) (iter : TreeIter)
    (r : row) (w : BleachBitWindow) :
  Gtk.nth_row (treestore_options w) iter = Some r ->
  stdout (snd (visible_func ucd iter w))
  = stdout w
    ++ [Py.text "Search changed filter: " ++ Py.format (search_entry_text w)
        ++ Py.text " current row: " ++ label r].
Proof. intros Hr. rewrite (visible_func_row ucd iter r w Hr). reflexivity. Qed.

Lemma callback_prints_one_line_witness :
  stdout (snd (visible_func Unicode.sample [1]
                 {| search_entry_text := Some [];
                    treestore_options := example_store;
                    stdout := [Py.text "earlier"] |}))
  = [Py.text "earlier";
     Py.text "Search changed filter:  current row: System"].
Proof.
  apply (callback_prints_one_line Unicode.sample [1]
           (Row (Py.text "System") true [leaf "Logs" true])
           {| search_entry_text := Some [];
              treestore_options := example_store;
              stdout := [Py.text "earlier"] |}).
  reflexivity.
Defined.

(* ===================================================================== *)
(** ** The filter on ASCII text *)
(* ===================================================================== *)

(** X16 (lines 151-168): when the search text and the labels of a row, of
    its parent and of its children are ASCII, the row is visible for a
    non-empty text exactly when its own label, its parent's label or the
    label of one of its children has a part that is the text up to the
    case of the letters A-Z. *)
Theorem ascii_row_visible_iff_label_contains_text_ignoring_case
    (ucd : Unicode.database) (model : TreeStore) (iter : TreeIter) (r : row)
    (term : Py.str) :
  ascii_entries ucd ->
  Gtk.nth_row model iter = Some r ->
  term <> [] ->
  ascii_only term ->
  ascii_only (label r) ->
  (forall pr, parent_row model iter = Some pr -> ascii_only (label pr)) ->
  Forall (fun c => ascii_only (label c)) (children r) ->
  exists b : bool,
    is_visible ucd model iter term = Some b
    /\ (b = true <->
        contains_ignoring_case (label r) term
        \/ (exists pr, parent_row model iter = Some pr
                       /\ contains_ignoring_case (label pr) term)
        \/ (exists c, In c (children r)
                      /\ contains_ignoring_case (label c) term)).
Proof.
  intros Hucd Hr Hterm Ht Hl Hp Hc.
  destruct (visible_iff_self_parent_or_child_aux ucd model iter r term
              Hr Hterm) as (b & Hb & Hiff).
  exists b. split; [exact Hb|]. rewrite Hiff.
  rewrite (lower_contains_ascii ucd (label r) term Hucd Hl Ht).
  rewrite Forall_forall in Hc.
  split; (intros [H | [(pr & Hpr & H) | (c & Hin & H)]];
          [left; exact H
          |right; left; exists pr; split; [exact Hpr|];
           apply (lower_contains_ascii ucd _ _ Hucd (Hp pr Hpr) Ht); exact H
          |right; right; exists c; split; [exact Hin|];
           apply (lower_contains_ascii ucd _ _ Hucd (Hc c Hin) Ht); exact H]).
Qed.

Lemma Forall2_same_letter_truthy (s t : Py.str) :
  Forall2 same_letter s t -> Py.truthy (Some s) = Py.truthy (Some t).
Proof. destruct 1; reflexivity. Qed.

(** X17 (lines 151-168): two ASCII search texts that differ only in the
    case of their letters get the same answer at every node, whatever the
    labels are. *)
Theorem ascii_terms_differing_in_case_get_the_same_answer
    (ucd : Unicode.database) (model : TreeStore) (iter : TreeIter)
    (s t : Py.str) :
  ascii_entries ucd ->
  ascii_only s -> ascii_only t ->
  Forall2 same_letter s t ->
  is_visible ucd model iter s = is_visible ucd model iter t.
Proof.
  intros Hucd Hs Ht Hst.
  assert (Hlow : Py.lower ucd s = Py.lower ucd t).
  { rewrite (lower_ascii ucd s Hucd Hs), (lower_ascii ucd t Hucd Ht).
    apply map_ascii_lower_same_letter; assumption. }
  destruct (Gtk.nth_row model iter) as [r|] eqn:Hr.
  - rewrite !(is_visible_row ucd _ _ r) by exact Hr. f_equal.
    unfold answer. rewrite (Forall2_same_letter_truthy _ _ Hst).
    unfold visible_rule, matches. rewrite Hlow. reflexivity.
  - rewrite !is_visible_stale by exact Hr. reflexivity.
Qed.

(** A row shown for a term is shown for every term whose lowering occurs
    in the lowering of the first. *)
Lemma visible_for_lower_part (ucd : Unicode.database) (model : TreeStore)
    (iter : TreeIter) (s t : Py.str) :
  substring_of (Py.lower ucd s) (Py.lower ucd t) ->
  (t = [] -> s = []) ->
  is_visible ucd model iter t = Some true ->
  is_visible ucd model iter s = Some true.
Proof.
  intros Hst Hempty Hvis.
  destruct (Gtk.nth_row model iter) as [r|] eqn:Hr;
    [|rewrite (is_visible_stale _ _ _ _ Hr) in Hvis; discriminate].
  rewrite (is_visible_row _ _ _ _ t Hr) in Hvis.
  rewrite (is_visible_row _ _ _ _ s Hr).
  f_equal. assert (Hans : answer ucd model iter r (Some t) = true)
    by congruence.
  clear Hvis. unfold answer in *.
  destruct s as [|a s]; [reflexivity|].
  destruct t as [|b t]; [specialize (Hempty eq_refl); discriminate|].
  cbn [Py.truthy] in *.
  apply visible_rule_spec. apply visible_rule_spec in Hans.
  unfold lower_contains in *.
  destruct Hans as [H | [(pr & Hpr & H) | (c & Hc & H)]].
  - left. eapply substring_of_trans; eauto.
  - right; left. exists pr. split; [exact Hpr|].
    eapply substring_of_trans; eauto.
  - right; right. exists c. split; [exact Hc|].
    eapply substring_of_trans; eauto.
Qed.

(** X18 (lines 151-168): a node that is visible for an ASCII search text
    is visible for every text that occurs in it, whatever the labels are:
    extending an ASCII text can hide rows and never reveals one. *)
Theorem visible_for_ascii_term_then_for_its_substrings
    (ucd : Unicode.database) (model : TreeStore) (iter : TreeIter)
    (s t : Py.str) :
  ascii_entries ucd ->
  ascii_only t ->
  substring_of s t ->
  is_visible ucd model iter t = Some true ->
  is_visible ucd model iter s = Some true.
Proof.
  intros Hucd Ht (pre & post & ->).
  apply ascii_only_app in Ht as Hparts. destruct Hparts as [Hpre Hrest].
  apply ascii_only_app in Hrest as [Hs Hpost].
  apply visible_for_lower_part.
  - rewrite (lower_ascii ucd _ Hucd Ht), (lower_ascii ucd s Hucd Hs).
    exists (map ascii_lower pre), (map ascii_lower post).
    rewrite !map_app. reflexivity.
  - intros H. apply app_eq_nil in H as [_ H].
    apply app_eq_nil in H as [H _]. exact H.
Qed.

Lemma Some_inj {A : Type} (x y : A) : Some x = Some y -> x = y.
Proof. congruence. Qed.

(** Deciding that a string is ASCII. *)
Definition ascii_onlyb (s : Py.str) : bool := forallb (fun c => (c <? 128)%N) s.

Lemma ascii_onlyb_spec (s : Py.str) : ascii_onlyb s = true -> ascii_only s.
Proof.
  unfold ascii_onlyb, ascii_only. rewrite forallb_forall, Forall_forall.
  intros H c Hc. apply N.ltb_lt, H, Hc.
Qed.

Lemma ascii_row_visible_iff_label_contains_text_ignoring_case_witness :
  exists b : bool,
    is_visible Unicode.sample example_store [0; 1] (Py.text "FOX") = Some b
    /\ (b = true <->
        contains_ignoring_case (Py.text "History") (Py.text "FOX")
        \/ (exists pr, parent_row example_store [0; 1] = Some pr
                       /\ contains_ignoring_case (label pr) (Py.text "FOX"))
        \/ (exists c, In c []
                      /\ contains_ignoring_case (label c) (Py.text "FOX"))).
Proof.
  apply (ascii_row_visible_iff_label_contains_text_ignoring_case
           Unicode.sample example_store [0; 1] (leaf "History" false)
           (Py.text "FOX")).
  - exact sample_ascii_entries.
  - reflexivity.
  - discriminate.
  - apply ascii_onlyb_spec. reflexivity.
  - apply ascii_onlyb_spec. reflexivity.
  - intros pr Hpr. vm_compute in Hpr.
    assert (E : pr = Row (Py.text "Firefox") true
                         [leaf "Cache" true; leaf "History" false])
      by (symmetry; apply Some_inj; exact Hpr).
    rewrite E. apply ascii_onlyb_spec. reflexivity.
  - constructor.
Defined.

Lemma ascii_terms_differing_in_case_get_the_same_answer_witness :
  is_visible Unicode.sample example_store [0] (Py.text "CaChE")
  = is_visible Unicode.sample example_store [0] (Py.text "cache").
Proof.
  apply (ascii_terms_differing_in_case_get_the_same_answer Unicode.sample).
  - exact sample_ascii_entries.
  - apply ascii_onlyb_spec. reflexivity.
  - apply ascii_onlyb_spec. reflexivity.
  - cbn. repeat (constructor; [unfold same_letter; lia|]). constructor.
Defined.

Lemma visible_for_ascii_term_then_for_its_substrings_witness :
  is_visible Unicode.sample example_store [0; 1] (Py.text "Is") = Some true.
Proof.
  apply (visible_for_ascii_term_then_for_its_substrings Unicode.sample
           example_store [0; 1] (Py.text "Is") (Py.text "HIsTo")).
  - exact sample_ascii_entries.
  - apply ascii_onlyb_spec. reflexivity.
  - exists (Py.text "H"), (Py.text "To"). reflexivity.
  - reflexivity.
Defined.
(* ===================================================================== *)
(** ** Filling the store: [populate_options_pane] (lines 170-186) *)
(* ===================================================================== *)

Module Store.

(** The rows with [new] put after the last child of the row at [path];
    the empty path stands for the top level. *)
Fixpoint append_row (rows : list row) (path : TreeIter) (new : row)
  : option (list row) :=
  match path with
  | [] => Some (rows ++ [new])
  | i :: rest =>
      match nth_error rows i with
      | None => None
      | Some r =>
          match append_row (children r) rest new with
          | None => None
          | Some cs =>
              Some (firstn i rows
                    ++ Row (label r) (enabled r) cs :: skipn (S i) rows)
          end
      end
  end.

(** The number of rows directly below [parent] ([None]: at the top level). *)
Definition n_children (model : TreeStore) (parent : option TreeIter)
  : option nat :=
  match parent with
  | None => Some (List.length model)
  | Some p =>
      match Gtk.nth_row model p with
      | Some r => Some (List.length (children r))
      | None => None
      end
  end.

(** [model.append(parent, [text, flag])]: a new row without children after
    the last child of [parent], or after the last top-level row when
    [parent] is [None]; the call returns the store as changed and the
    iterator of the new row.  The result [None] stands for the failure on a
    parent that does not exist. *)
Definition append (model : TreeStore) (parent : option TreeIter)
    (cols : Py.str * bool) : option (TreeStore * TreeIter) :=
  let path := match parent with None => [] | Some p => p end in
  match n_children model parent,
        append_row model path (Row (fst cols) (snd cols) []) with
  | Some n, Some model' => Some (model', path ++ [n])
  | _, _ => None
  end.

(** Lines 185-186: the inner loop, one row per child name. *)
Fixpoint append_children (kids : list Py.str) (parent_iter : TreeIter)
    (store : TreeStore) : option TreeStore :=
  match kids with
  | [] => Some store
  | child :: rest =>
      match append store (Some parent_iter) (child, true) with
      | Some (store', _) => append_children rest parent_iter store'
      | None => None
      end
  end.

(** Lines 183-186: the loop over the items of the dictionary, in the order
    of insertion. *)
Fixpoint populate (data : list (Py.str * list Py.str)) (store : TreeStore)
  : option TreeStore :=
  match data with
  | [] => Some store
  | (parent, kids) :: rest =>
      match append store None (parent, true) with
      | Some (store', parent_iter) =>
          match append_children kids parent_iter store' with
          | Some store'' => populate rest store''
          | None => None
          end
      | None => None
      end
  end.

(** The rows a dictionary of options stands for. *)
Definition rows_of (data : list (Py.str * list Py.str)) : list row :=
  map (fun '(parent, kids) =>
         Row parent true (map (fun child => Row child true []) kids))
      data.

(** Every row of the first store is found in the second at the same path,
    with the same two columns. *)
Definition kept_in (m m' : list row) : Prop :=
  forall iter r,
    Gtk.nth_row m iter = Some r ->
    exists r', Gtk.nth_row m' iter = Some r'
               /\ label r' = label r /\ enabled r' = enabled r.

End Store.

Example populate_sample :
  Store.populate sample_data [] = Some populate_options_pane.
Proof. reflexivity. Qed.

Example append_below_second :
  Store.append example_store (Some [1]) (Py.text "Trash", false)
  = Some ([ Row (Py.text "Firefox") true
                [leaf "Cache" true; leaf "History" false];
            Row (Py.text "System") true [leaf "Logs" true; leaf "Trash" false];
            leaf "System" false ],
          [1; 1]).
Proof. reflexivity. Qed.

Section StoreFacts.

Lemma Some_eq {A : Type} (x y : A) : Some x = Some y -> x = y.
Proof. congruence. Qed.

Lemma nth_error_replaced (rows : list row) (i : nat) (r x : row) :
  nth_error rows i = Some r ->
  nth_error (firstn i rows ++ x :: skipn (S i) rows) i = Some x.
Proof.
  intros Hi.
  assert (Hlen : i < List.length rows) by (apply nth_error_Some; congruence).
  assert (Hfl : List.length (firstn i rows) = i)
    by (apply firstn_length_le; lia).
  rewrite nth_error_app2 by lia. rewrite Hfl, Nat.sub_diag. reflexivity.
Qed.

Lemma nth_error_beside (rows : list row) (i j : nat) (x : row) :
  i < List.length rows -> j <> i ->
  nth_error (firstn i rows ++ x :: skipn (S i) rows) j = nth_error rows j.
Proof.
  intros Hi Hj.
  assert (Hfl : List.length (firstn i rows) = i)
    by (apply firstn_length_le; lia).
  transitivity (nth_error (firstn i rows ++ skipn i rows) j);
    [|rewrite firstn_skipn; reflexivity].
  destruct (Nat.lt_ge_cases j i) as [Hlt | Hge].
  - rewrite !nth_error_app1 by lia. reflexivity.
  - rewrite !nth_error_app2 by lia. rewrite Hfl.
    destruct (j - i) as [|d] eqn:Hd; [exfalso; lia|].
    rewrite nth_error_skipn. cbn [nth_error].
    rewrite nth_error_skipn. f_equal. lia.
Qed.

Lemma nth_row_top (rows : list row) (i : nat) :
  Gtk.nth_row rows [i] = nth_error rows i.
Proof. simpl. destruct (nth_error rows i); reflexivity. Qed.

Lemma nth_row_step (rows : list row) (i j : nat) (rest : TreeIter) :
  Gtk.nth_row rows (i :: j :: rest)
  = match nth_error rows i with
    | Some r => Gtk.nth_row (children r) (j :: rest)
    | None => None
    end.
Proof. reflexivity. Qed.

(** Appending below an existing row succeeds. *)
Lemma append_row_succeeds (new : row) (path : TreeIter) :
  forall (rows : list row) (r : row),
    Gtk.nth_row rows path = Some r ->
    exists rows', Store.append_row rows path new = Some rows'.
Proof.
  induction path as [|i [|j rest] IH]; intros rows r Hr; [discriminate| |].
  - rewrite nth_row_top in Hr. cbn [Store.append_row]. rewrite Hr.
    eexists. reflexivity.
  - rewrite nth_row_step in Hr. cbn [Store.append_row].
    destruct (nth_error rows i) as [ri|]; [|discriminate].
    destruct (IH _ _ Hr) as (cs & Hcs).
    cbn [Store.append_row] in Hcs |- *. rewrite Hcs. eexists. reflexivity.
Qed.

(** After appending below the row at [path], that row has the new row as
    its last child. *)
Lemma append_row_parent (new : row) (path : TreeIter) :
  forall (rows rows' : list row) (r : row),
    Gtk.nth_row rows path = Some r ->
    Store.append_row rows path new = Some rows' ->
    Gtk.nth_row rows' path
    = Some (Row (label r) (enabled r) (children r ++ [new])).
Proof.
  induction path as [|i [|j rest] IH]; intros rows rows' r Hr Happ;
    [discriminate| |].
  - rewrite nth_row_top in Hr. cbn [Store.append_row] in Happ.
    rewrite Hr in Happ. apply Some_eq in Happ; subst rows'.
    rewrite nth_row_top. apply (nth_error_replaced _ _ r), Hr.
  - rewrite nth_row_step in Hr.
    change (Store.append_row rows (i :: j :: rest) new)
      with (match nth_error rows i with
            | None => None
            | Some ri =>
                match Store.append_row (children ri) (j :: rest) new with
                | None => None
                | Some cs =>
                    Some (firstn i rows
                          ++ Row (label ri) (enabled ri) cs :: skipn (S i) rows)
                end
            end) in Happ.
    destruct (nth_error rows i) as [ri|] eqn:Hi; [|discriminate].
    destruct (Store.append_row (children ri) (j :: rest) new) as [cs|] eqn:Hcs;
      [|discriminate].
    apply Some_eq in Happ; subst rows'.
    rewrite nth_row_step, (nth_error_replaced _ _ ri) by exact Hi.
    cbn [children]. apply (IH _ _ _ Hr Hcs).
Qed.

(** Appending keeps the rows there were, at their paths. *)
Lemma append_row_kept (new : row) (path : TreeIter) :
  forall rows rows' : list row,
    Store.append_row rows path new = Some rows' ->
    Store.kept_in rows rows'.
Proof.
  induction path as [|i rest IH]; intros rows rows' Happ iter r Hr.
  - apply Some_eq in Happ; subst rows'.
    destruct iter as [|k [|j more]]; [discriminate| |].
    + rewrite nth_row_top in *. exists r.
      rewrite nth_error_app1 by (apply nth_error_Some; congruence). auto.
    + rewrite nth_row_step in *.
      destruct (nth_error rows k) as [rk|] eqn:Hk; [|discriminate].
      rewrite nth_error_app1 by (apply nth_error_Some; congruence).
      rewrite Hk. exists r. auto.
  - cbn [Store.append_row] in Happ.
    destruct (nth_error rows i) as [ri|] eqn:Hi; [|discriminate].
    destruct (Store.append_row (children ri) rest new) as [cs|] eqn:Hcs;
      [|discriminate].
    apply Some_eq in Happ; subst rows'.
    assert (Hlen : i < List.length rows) by (apply nth_error_Some; congruence).
    destruct iter as [|k [|j more]]; [discriminate| |].
    + rewrite nth_row_top in *.
      destruct (Nat.eq_dec k i) as [->|Hne].
      * rewrite (nth_error_replaced _ _ ri) by exact Hi.
        eexists. split; [reflexivity|].
        assert (r = ri) by congruence. subst r. auto.
      * rewrite nth_error_beside by assumption. exists r. auto.
    + rewrite nth_row_step in *.
      destruct (Nat.eq_dec k i) as [->|Hne].
      * rewrite (nth_error_replaced _ _ ri) by exact Hi. rewrite Hi in Hr.
        cbn [children]. apply (IH _ _ Hcs), Hr.
      * rewrite nth_error_beside by assumption.
        destruct (nth_error rows k); [|discriminate]. exists r. auto.
Qed.

Lemma kept_in_get_value (m m' : TreeStore) :
  Store.kept_in m m' ->
  forall iter column,
    Gtk.iter_is_valid m iter = true ->
    Gtk.get_value m' iter column = Gtk.get_value m iter column.
Proof.
  intros Hk iter column Hv. unfold Gtk.iter_is_valid, Gtk.get_value in *.
  destruct (Gtk.nth_row m iter) as [r|] eqn:Hr; [|discriminate].
  destruct (Hk _ _ Hr) as (r' & -> & Hl & He). rewrite Hl, He. reflexivity.
Qed.

End StoreFacts.

Section AppendTheorems.

Variable model : TreeStore.

(** What [append] returns below a row, or at the top level. *)
Lemma append_below (p : TreeIter) (r : row) (cols : Py.str * bool) :
  Gtk.nth_row model p = Some r ->
  exists m',
    Store.append model (Some p) cols
    = Some (m', p ++ [List.length (children r)])
    /\ Gtk.nth_row m' p
       = Some (Row (label r) (enabled r)
                   (children r ++ [Row (fst cols) (snd cols) []]))
    /\ Store.kept_in model m'.
Proof.
  intros Hr. unfold Store.append, Store.n_children. rewrite Hr.
  destruct (append_row_succeeds (Row (fst cols) (snd cols) []) p model r Hr)
    as (m' & Happ).
  rewrite Happ. exists m'. split; [reflexivity|]. split.
  - apply (append_row_parent _ _ _ _ _ Hr Happ).
  - apply (append_row_kept _ _ _ _ Happ).
Qed.

Lemma append_top (cols : Py.str * bool) :
  Store.append model None cols
  = Some (model ++ [Row (fst cols) (snd cols) []], [List.length model]).
Proof. reflexivity. Qed.

Lemma nth_error_snoc (l : list row) (x : row) :
  nth_error (l ++ [x]) (List.length l) = Some x
  /\ nth_error (l ++ [x]) (S (List.length l)) = None.
Proof.
  split.
  - rewrite nth_error_app2, Nat.sub_diag by lia. reflexivity.
  - apply nth_error_None. rewrite length_app. simpl. lia.
Qed.

(** X4 (lines 184, 186): [append] below an existing row, or at the top
    level, succeeds; the iterator it returns designates a row with the two
    values given, whose parent is the parent given, which has no children
    and no next sibling. *)
Theorem append_then_lookup (parent : option TreeIter) (text : Py.str)
    (flag : bool) :
  match parent with
  | Some p => Gtk.iter_is_valid model p = true
  | None => True
  end ->
  exists m' it,
    Store.append model parent (text, flag) = Some (m', it)
    /\ Gtk.get_value m' it 0 = Some (VStr text)
    /\ Gtk.get_value m' it 1 = Some (VBool flag)
    /\ Gtk.iter_parent m' it = parent
    /\ Gtk.iter_children m' it = None
    /\ Gtk.iter_next m' it = None.
Proof.
  intros Hparent.
  assert (Hleaf : forall m' it,
             Gtk.nth_row m' it = Some (Row text flag []) ->
             Gtk.get_value m' it 0 = Some (VStr text)
             /\ Gtk.get_value m' it 1 = Some (VBool flag)
             /\ Gtk.iter_children m' it = None).
  { intros m' it Hit. unfold Gtk.get_value. rewrite Hit.
    rewrite (iter_children_row _ _ _ Hit). auto. }
  destruct parent as [p|].
  - unfold Gtk.iter_is_valid in Hparent.
    destruct (Gtk.nth_row model p) as [r|] eqn:Hr; [|discriminate].
    destruct (append_below p r (text, flag) Hr) as (m' & Happ & Hp & _).
    cbn [fst snd] in Hp.
    destruct (nth_error_snoc (children r) (Row text flag [])) as [Hlast Hend].
    assert (Hit : Gtk.nth_row m' (p ++ [List.length (children r)])
                  = Some (Row text flag []))
      by (rewrite (nth_row_child _ _ _ _ Hp); exact Hlast).
    exists m', (p ++ [List.length (children r)]).
    destruct (Hleaf _ _ Hit) as (H0 & H1 & Hc).
    split; [exact Happ|]. split; [exact H0|]. split; [exact H1|].
    split; [|split; [exact Hc|]].
    + rewrite (iter_parent_row _ _ _ Hit), removelast_last.
      destruct p; [discriminate | reflexivity].
    + unfold Gtk.iter_next, Gtk.iter_is_valid.
      rewrite path_next_snoc, (nth_row_child _ _ _ _ Hp).
      cbn [children]. rewrite Hend. reflexivity.
  - rewrite append_top. cbn [fst snd].
    destruct (nth_error_snoc model (Row text flag [])) as [Hlast Hend].
    assert (Hit : Gtk.nth_row (model ++ [Row text flag []])
                              [List.length model]
                  = Some (Row text flag []))
      by (rewrite nth_row_top; exact Hlast).
    exists (model ++ [Row text flag []]), [List.length model].
    split; [reflexivity|].
    destruct (Hleaf _ _ Hit) as (H0 & H1 & Hc).
    split; [exact H0|]. split; [exact H1|]. split; [|split; [exact Hc|]].
    + rewrite (iter_parent_row _ _ _ Hit). reflexivity.
    + unfold Gtk.iter_next, Gtk.iter_is_valid.
      cbn [Gtk.path_next]. rewrite nth_row_top, Hend. reflexivity.
Qed.

End AppendTheorems.

Lemma append_then_lookup_witness :
  exists m' it,
    Store.append example_store (Some [1]) (Py.text "Trash", false)
    = Some (m', it)
    /\ Gtk.get_value m' it 0 = Some (VStr (Py.text "Trash"))
    /\ Gtk.get_value m' it 1 = Some (VBool false)
    /\ Gtk.iter_parent m' it = Some [1]
    /\ Gtk.iter_children m' it = None
    /\ Gtk.iter_next m' it = None.
Proof.
  apply (append_then_lookup example_store (Some [1]) (Py.text "Trash") false).
  reflexivity.
Defined.

Section Growth.

Lemma append_kept (model m' : TreeStore) (parent : option TreeIter)
    (cols : Py.str * bool) (it : TreeIter) :
  Store.append model parent cols = Some (m', it) ->
  Store.kept_in model m'.
Proof.
  unfold Store.append. intros Happ.
  destruct (Store.n_children model parent) as [n|]; [|discriminate].
  destruct (Store.append_row model _ _) as [rows|] eqn:Hrows; [|discriminate].
  apply Some_eq in Happ. assert (rows = m') by congruence. subst rows.
  apply (append_row_kept _ _ _ _ Hrows).
Qed.

(** X5 (lines 184, 186): [append] returns an iterator that designated no
    row before, and leaves every row there was at its path, with the same
    values in both columns. *)
Theorem append_keeps_existing_rows (model m' : TreeStore)
    (parent : option TreeIter) (cols : Py.str * bool) (it : TreeIter) :
  Store.append model parent cols = Some (m', it) ->
  Gtk.iter_is_valid model it = false
  /\ forall iter column,
       Gtk.iter_is_valid model iter = true ->
       Gtk.get_value m' iter column = Gtk.get_value model iter column.
Proof.
  intros Happ. split.
  - unfold Store.append, Store.n_children in Happ. unfold Gtk.iter_is_valid.
    destruct parent as [p|].
    + destruct (Gtk.nth_row model p) as [r|] eqn:Hr; [|discriminate].
      destruct (Store.append_row model p _); [|discriminate].
      apply Some_eq in Happ. apply (f_equal snd) in Happ.
      cbn [snd] in Happ. subst it.
      rewrite (nth_row_child _ _ _ _ Hr).
      assert (Hnone : nth_error (children r) (List.length (children r)) = None)
        by (apply nth_error_None; lia).
      rewrite Hnone. reflexivity.
    + apply Some_eq in Happ. apply (f_equal snd) in Happ.
      cbn [snd app] in Happ. subst it.
      rewrite nth_row_top.
      assert (Hnone : nth_error model (List.length model) = None)
        by (apply nth_error_None; lia).
      rewrite Hnone. reflexivity.
  - intros iter column. apply kept_in_get_value, (append_kept _ _ _ _ _ Happ).
Qed.

Lemma append_keeps_existing_rows_witness :
  Gtk.iter_is_valid example_store [0; 2] = false
  /\ forall iter column,
       Gtk.iter_is_valid example_store iter = true ->
       Gtk.get_value
         [ Row (Py.text "Firefox") true
               [leaf "Cache" true; leaf "History" false; leaf "Cookies" true];
           Row (Py.text "System") true [leaf "Logs" true];
           leaf "System" false ] iter column
       = Gtk.get_value example_store iter column.
Proof.
  apply (append_keeps_existing_rows example_store _ (Some [0])
           (Py.text "Cookies", true) [0; 2]).
  reflexivity.
Defined.

(** Rows that are kept stay visible. *)
Lemma kept_in_visible (ucd : Unicode.database) (m m' : TreeStore)
    (iter : TreeIter) (term : Py.str) :
  Store.kept_in m m' ->
  is_visible ucd m iter term = Some true ->
  is_visible ucd m' iter term = Some true.
Proof.
  intros Hk Hvis.
  destruct (Gtk.nth_row m iter) as [r|] eqn:Hr;
    [|rewrite (is_visible_stale _ _ _ _ Hr) in Hvis; discriminate].
  destruct (Hk _ _ Hr) as (r' & Hr' & Hl & _).
  rewrite (is_visible_row _ _ _ _ _ Hr) in Hvis.
  rewrite (is_visible_row _ _ _ _ _ Hr'). f_equal.
  assert (Hans : answer ucd m iter r (Some term) = true) by congruence.
  clear Hvis. unfold answer in *.
  destruct (Py.truthy (Some term)); [|reflexivity].
  apply visible_rule_spec. apply visible_rule_spec in Hans.
  destruct Hans as [H | [(pr & Hpr & H) | (c & Hc & H)]].
  - left. rewrite Hl. exact H.
  - right; left. unfold parent_row in *.
    destruct (Hk _ _ Hpr) as (pr' & Hpr' & Hpl & _).
    exists pr'. rewrite Hpl. auto.
  - right; right. apply In_nth_error in Hc as (k & Hc).
    rewrite <- (nth_row_child _ _ _ k Hr) in Hc.
    destruct (Hk _ _ Hc) as (c' & Hc' & Hcl & _).
    rewrite (nth_row_child _ _ _ k Hr') in Hc'.
    exists c'. rewrite Hcl. split; [|exact H]. eapply nth_error_In, Hc'.
Qed.

(** X6 (lines 136-168 with 184, 186): a row that the filter shows for a
    search text is still shown for it after any [append] to the store:
    adding rows never hides a row. *)
Theorem append_never_hides_a_row (ucd : Unicode.database)
    (model m' : TreeStore) (parent : option TreeIter) (cols : Py.str * bool)
    (it iter : TreeIter) (term : Py.str) :
  Store.append model parent cols = Some (m', it) ->
  is_visible ucd model iter term = Some true ->
  is_visible ucd m' iter term = Some true.
Proof.
  intros Happ. apply kept_in_visible, (append_kept _ _ _ _ _ Happ).
Qed.

Lemma append_never_hides_a_row_witness :
  is_visible Unicode.sample
    [ Row (Py.text "Firefox") true [leaf "Cache" true; leaf "History" false];
      Row (Py.text "System") true [leaf "Logs" true];
      leaf "System" false;
      leaf "Edge" true ] [0] (Py.text "cache")
  = Some true.
Proof.
  apply (append_never_hides_a_row Unicode.sample example_store _ None
           (Py.text "Edge", true) [3] [0] (Py.text "cache")); reflexivity.
Defined.

End Growth.

Section Populate.

Lemma firstn_skipn_snoc (pre : list row) (x : row) :
  firstn (List.length pre) (pre ++ [x]) = pre
  /\ skipn (S (List.length pre)) (pre ++ [x]) = [].
Proof.
  split.
  - rewrite firstn_app, Nat.sub_diag, firstn_all, firstn_O, app_nil_r.
    reflexivity.
  - apply skipn_all2. rewrite length_app. simpl. lia.
Qed.

(** One [append] below the last top-level row. *)
Lemma append_below_last (pre : list row) (l : Py.str) (e : bool)
    (cs : list row) (cols : Py.str * bool) :
  Store.append (pre ++ [Row l e cs]) (Some [List.length pre]) cols
  = Some (pre ++ [Row l e (cs ++ [Row (fst cols) (snd cols) []])],
          [List.length pre; List.length cs]).
Proof.
  destruct (nth_error_snoc pre (Row l e cs)) as [Hlast _].
  destruct (firstn_skipn_snoc pre (Row l e cs)) as [Hfirst Hskip].
  unfold Store.append, Store.n_children.
  rewrite nth_row_top, Hlast. cbn [Store.append_row children label enabled].
  rewrite Hlast. cbn [children label enabled].
  rewrite Hfirst, Hskip. reflexivity.
Qed.

(** The inner loop below the last top-level row. *)
Lemma append_children_below_last (kids : list Py.str) :
  forall (pre : list row) (l : Py.str) (e : bool) (cs : list row),
    Store.append_children kids [List.length pre] (pre ++ [Row l e cs])
    = Some (pre ++ [Row l e (cs ++ map (fun child => Row child true []) kids)]).
Proof.
  induction kids as [|child kids IH]; intros pre l e cs.
  - cbn [Store.append_children map]. rewrite app_nil_r. reflexivity.
  - cbn [Store.append_children map]. rewrite append_below_last.
    cbn [fst snd]. rewrite IH, <- app_assoc. reflexivity.
Qed.

Lemma populate_closed_form (data : list (Py.str * list Py.str)) :
  forall store : TreeStore,
    Store.populate data store = Some (store ++ Store.rows_of data).
Proof.
  induction data as [|[parent kids] data IH]; intros store.
  - cbn [Store.populate Store.rows_of map]. rewrite app_nil_r. reflexivity.
  - cbn [Store.populate]. rewrite append_top. cbn [fst snd].
    rewrite (append_children_below_last kids store parent true []).
    cbn [app]. rewrite IH, <- app_assoc. reflexivity.
Qed.

(** X7 (lines 183-186): the two loops never fail on any dictionary and any
    store; they keep the rows there were and add, in the order of the
    dictionary, one top-level row per key with one child row per name in
    its list, every new row checked. *)
Theorem populate_adds_one_category_per_item
    (data : list (Py.str * list Py.str)) (store : TreeStore) :
  Store.populate data store = Some (store ++ Store.rows_of data).
Proof. apply populate_closed_form. Qed.

Lemma two_level_app (m1 m2 : TreeStore) :
  two_level m1 -> two_level m2 -> two_level (m1 ++ m2).
Proof. unfold two_level. intros H1 H2. apply Forall_app. auto. Qed.

Lemma two_level_rows_of (data : list (Py.str * list Py.str)) :
  two_level (Store.rows_of data).
Proof.
  unfold two_level, Store.rows_of.
  apply Forall_forall. intros r Hr. apply in_map_iff in Hr as ([p kids] & <- & _).
  cbn [children]. apply Forall_forall. intros c Hc.
  apply in_map_iff in Hc as (child & <- & _). reflexivity.
Qed.

(** X8 (lines 183-186): filling a two-level store gives a two-level store:
    the tree the filter looks at has categories and items and nothing
    deeper, whatever the dictionary holds. *)
Theorem populate_keeps_two_levels (data : list (Py.str * list Py.str))
    (store : TreeStore) :
  two_level store ->
  exists store',
    Store.populate data store = Some store' /\ two_level store'.
Proof.
  intros Htwo. exists (store ++ Store.rows_of data). split.
  - apply populate_closed_form.
  - apply two_level_app; [exact Htwo | apply two_level_rows_of].
Qed.

End Populate.

Lemma populate_keeps_two_levels_witness :
  exists store',
    Store.populate sample_data example_store = Some store'
    /\ two_level store'.
Proof.
  apply (populate_keeps_two_levels sample_data example_store).
  repeat constructor.
Defined.

(* ===================================================================== *)
(** ** The results pane (lines 215-316, 362-374) *)
(* ===================================================================== *)

From Stdlib Require DecimalString.

Module Results.

(** One row of [Gtk.ListStore(str, str, str, int, str)]: cleaner, option,
    file name, file size, action. *)
Record file_row : Type := {
  cleaner_name : string;
  option_name : string;
  filename : string;
  size : Z;
  result : string
}.

(** The value held by a cell of the list. *)
Inductive cell : Type :=
| CStr (s : string)
| CInt (z : Z).

(** A handler connected to the signal [activate] of a menu item: the bound
    method [self.on_copy_path_activated] with its user data. *)
Inductive handler : Type :=
| copy_path_handler (user_data : cell).

(** A [Gtk.MenuItem]: its label, the handlers connected to [activate] in
    the order of connection, and whether it is shown. *)
Record MenuItem : Type := {
  item_label : string;
  activate_handlers : list handler;
  item_visible : bool
}.

(** A [Gtk.Menu]: the items appended to it (as references), and whether it
    is shown. *)
Record Menu : Type := {
  menu_items : list nat;
  menu_visible : bool
}.

(** A button press: the mouse button and the time stamp. *)
Record EventButton : Type := { button : Z; time : Z }.

(** The part of the window the results pane works on.  Menu items and
    menus are objects: they live in [items] and [menus] and are referred to
    by their position there. *)
Record Pane : Type := {
  liststore : list file_row;
  selected_rows : list nat;
  whitelist_button_sensitive : bool;
  abort_button_sensitive : bool;
  clipboard : option string;
  items : list MenuItem;
  menus : list Menu;
  popups : list (nat * Z * Z);
  output : list string
}.

(** Computations over the pane: [None] is a raised exception. *)
Definition P (A : Type) : Type := Pane -> option A * Pane.

Definition pret {A} (a : A) : P A := fun s => (Some a, s).

Definition pbind {A B} (m : P A) (k : A -> P B) : P B :=
  fun s => match m s with
           | (Some a, s') => k a s'
           | (None, s') => (None, s')
           end.

Notation "x <~ m ;; k" := (pbind m (fun x => k))
  (at level 61, m at next level, right associativity).
Notation "m ;;~ k" := (pbind m (fun _ => k))
  (at level 61, right associativity).

Definition plift {A} (o : option A) : P A := fun s => (o, s).

Definition pgets {A} (f : Pane -> A) : P A := fun s => (Some (f s), s).

(** [for x in xs: body(x)] *)
Fixpoint for_each {A} (xs : list A) (body : A -> P unit) : P unit :=
  match xs with
  | [] => pret tt
  | x :: rest => body x ;;~ for_each rest body
  end.

(** The list with the element at position [i] changed by [f]. *)
Fixpoint update_nth {A} (i : nat) (f : A -> A) (l : list A) : list A :=
  match l, i with
  | [], _ => []
  | x :: l', 0 => f x :: l'
  | x :: l', S i' => x :: update_nth i' f l'
  end.

(** *** The list store *)

(** [model.get_iter(path)]: fails on a path that leads to no row. *)
Definition get_iter (model : list file_row) (path : nat) : option nat :=
  if (path <? List.length model)%nat then Some path else None.

(** [model.get_value(iter, column)] *)
Definition get_value (model : list file_row) (iter : nat) (column : nat)
  : option cell :=
  match nth_error model iter with
  | None => None
  | Some r =>
      match column with
      | 0 => Some (CStr (cleaner_name r))
      | 1 => Some (CStr (option_name r))
      | 2 => Some (CStr (filename r))
      | 3 => Some (CInt (size r))
      | 4 => Some (CStr (result r))
      | _ => None
      end
  end.

(** [model[path][column]] *)
Definition getitem (model : list file_row) (path : nat) (column : nat)
  : option cell :=
  match get_iter model path with
  | Some iter => get_value model iter column
  | None => None
  end.

(** What an f-string writes for a cell. *)
Definition format_cell (c : cell) : string :=
  match c with
  | CStr s => s
  | CInt z => DecimalString.NilZero.string_of_int (Z.to_int z)
  end.

(** *** Widgets *)

Definition set_items (l : list MenuItem) (s : Pane) : Pane :=
  {| liststore := liststore s; selected_rows := selected_rows s;
     whitelist_button_sensitive := whitelist_button_sensitive s;
     abort_button_sensitive := abort_button_sensitive s;
     clipboard := clipboard s; items := l; menus := menus s;
     popups := popups s; output := output s |}.

Definition set_menus (l : list Menu) (s : Pane) : Pane :=
  {| liststore := liststore s; selected_rows := selected_rows s;
     whitelist_button_sensitive := whitelist_button_sensitive s;
     abort_button_sensitive := abort_button_sensitive s;
     clipboard := clipboard s; items := items s; menus := l;
     popups := popups s; output := output s |}.

(** [Gtk.Menu()] *)
Definition Menu_new : P nat :=
  fun s => (Some (List.length (menus s)),
            set_menus (menus s ++ [{| menu_items := [];
                                      menu_visible := false |}]) s).

(** [Gtk.MenuItem.new_with_label(label)] *)
Definition MenuItem_new_with_label (label : string) : P nat :=
  fun s => (Some (List.length (items s)),
            set_items (items s ++ [{| item_label := label;
                                      activate_handlers := [];
                                      item_visible := false |}]) s).

(** [item.connect("activate", self.on_copy_path_activated, user_data)] *)
Definition connect_activate (item : nat) (user_data : cell) : P unit :=
  fun s => (Some tt,
            set_items
              (update_nth item
                 (fun it => {| item_label := item_label it;
                               activate_handlers :=
                                 activate_handlers it
                                 ++ [copy_path_handler user_data];
                               item_visible := item_visible it |})
                 (items s)) s).

(** [menu.append(item)] *)
Definition menu_append (menu item : nat) : P unit :=
  fun s => (Some tt,
            set_menus
              (update_nth menu
                 (fun m => {| menu_items := menu_items m ++ [item];
                              menu_visible := menu_visible m |})
                 (menus s)) s).

Definition show_item (it : MenuItem) : MenuItem :=
  {| item_label := item_label it;
     activate_handlers := activate_handlers it;
     item_visible := true |}.

(** [menu.show_all()]: the menu and the items in it become visible. *)
Definition show_all (menu : nat) : P unit :=
  fun s =>
    match nth_error (menus s) menu with
    | None => (None, s)
    | Some m =>
        (Some tt,
         set_menus
           (update_nth menu
              (fun m => {| menu_items := menu_items m; menu_visible := true |})
              (menus s))
           (set_items
              (fold_left (fun l i => update_nth i show_item l)
                         (menu_items m) (items s))
              s))
    end.

(** [menu.popup(None, None, None, None, button, time)] *)
Definition popup (menu : nat) (button time : Z) : P unit :=
  fun s => (Some tt,
            {| liststore := liststore s; selected_rows := selected_rows s;
               whitelist_button_sensitive := whitelist_button_sensitive s;
               abort_button_sensitive := abort_button_sensitive s;
               clipboard := clipboard s; items := items s; menus := menus s;
               popups := popups s ++ [(menu, button, time)];
               output := output s |}).

(** [clipboard.set_text(text, -1)]: the text must be a [str]. *)
Definition clipboard_set_text (text : cell) : P unit :=
  fun s =>
    match text with
    | CInt _ => (None, s)
    | CStr t =>
        (Some tt,
         {| liststore := liststore s; selected_rows := selected_rows s;
            whitelist_button_sensitive := whitelist_button_sensitive s;
            abort_button_sensitive := abort_button_sensitive s;
            clipboard := Some t; items := items s; menus := menus s;
            popups := popups s; output := output s |})
    end.

(** [print(line)] *)
Definition print (line : string) : P unit :=
  fun s => (Some tt,
            {| liststore := liststore s; selected_rows := selected_rows s;
               whitelist_button_sensitive := whitelist_button_sensitive s;
               abort_button_sensitive := abort_button_sensitive s;
               clipboard := clipboard s; items := items s; menus := menus s;
               popups := popups s; output := output s ++ [line] |}).

(** [self.whitelist_button.set_sensitive(sensitive)] *)
Definition whitelist_button_set_sensitive (sensitive : bool) : P unit :=
  fun s => (Some tt,
            {| liststore := liststore s; selected_rows := selected_rows s;
               whitelist_button_sensitive := sensitive;
               abort_button_sensitive := abort_button_sensitive s;
               clipboard := clipboard s; items := items s; menus := menus s;
               popups := popups s; output := output s |}).

(** *** The callbacks *)

(** Lines 277-281. *)
Definition on_selection_changed : P unit :=
  paths <~ pgets selected_rows ;;
  let sensitive := (0 <? List.length paths)%nat in
  whitelist_button_set_sensitive sensitive.

(** Lines 283-287. *)
Definition on_copy_path_activated (filename : cell) : P unit :=
  clipboard_set_text filename.

(** Lines 289-314. *)
Definition on_file_result_context_menu (event : EventButton) : P unit :=
  if negb (button event =? 3)%Z then pret tt else
  model <~ pgets liststore ;;
  pathlist <~ pgets selected_rows ;;
  for_each pathlist (fun path =>
    tree_iter <~ plift (get_iter model path) ;;
    filename <~ plift (get_value model tree_iter 2) ;;
    menu <~ Menu_new ;;
    copy_path_item <~ MenuItem_new_with_label "Copy path" ;;
    connect_activate copy_path_item filename ;;~
    menu_append menu copy_path_item ;;~
    open_file_location_item <~ MenuItem_new_with_label "Open file location" ;;
    connect_activate copy_path_item filename ;;~
    menu_append menu open_file_location_item ;;~
    whitelist_item <~ MenuItem_new_with_label "Whitelist" ;;
    menu_append menu whitelist_item ;;~
    show_all menu ;;~
    popup menu (button event) (time event)).

(** Lines 367-374. *)
Definition on_whitelist_clicked : P unit :=
  model <~ pgets liststore ;;
  paths <~ pgets selected_rows ;;
  for_each paths (fun path =>
    filename <~ plift (getitem model path 2) ;;
    print ("Whitelisted: " ++ format_cell filename)%string).

(** The user picks an item of a menu: the handlers connected to its signal
    [activate] run in the order of connection. *)
Definition activate (item : nat) : P unit :=
  its <~ pgets items ;;
  it <~ plift (nth_error its item) ;;
  for_each (activate_handlers it)
           (fun h => match h with
                     | copy_path_handler user_data =>
                         on_copy_path_activated user_data
                     end).

(** The labels and handlers of the items of a menu, in their order. *)
Definition menu_view (s : Pane) (menu : nat)
  : option (list (string * list handler * bool)) :=
  match nth_error (menus s) menu with
  | None => None
  | Some m =>
      Some (map (fun i => match nth_error (items s) i with
                          | Some it => (item_label it, activate_handlers it,
                                        item_visible it)
                          | None => (EmptyString, [], false)
                          end)
                (menu_items m))
  end.

End Results.

Definition example_pane : Results.Pane :=
  {| Results.liststore :=
       [ {| Results.cleaner_name := "Firefox"; Results.option_name := "Cache";
            Results.filename := "/home/u/.cache/Firefox/7";
            Results.size := 120; Results.result := "" |};
         {| Results.cleaner_name := "Edge"; Results.option_name := "Cookies";
            Results.filename := "/home/u/.config/Edge/Cookies/31";
            Results.size := 9; Results.result := "" |} ];
     Results.selected_rows := [1; 0];
     Results.whitelist_button_sensitive := true;
     Results.abort_button_sensitive := false;
     Results.clipboard := None;
     Results.items := [];
     Results.menus := [];
     Results.popups := [];
     Results.output := [] |}.

Example context_menu_example :
  let s := snd (Results.on_file_result_context_menu
                  {| Results.button := 3; Results.time := 1000 |}
                  example_pane) in
  Results.popups s = [(0, 3%Z, 1000%Z); (1, 3%Z, 1000%Z)]
  /\ Results.menu_view s 0
     = Some [("Copy path",
              [Results.copy_path_handler
                 (Results.CStr "/home/u/.config/Edge/Cookies/31");
               Results.copy_path_handler
                 (Results.CStr "/home/u/.config/Edge/Cookies/31")], true);
             ("Open file location", [], true);
             ("Whitelist", [], true)]
  /\ Results.clipboard (snd (Results.activate 3 s))
     = Some "/home/u/.cache/Firefox/7".
Proof. vm_compute. repeat split. Qed.

Section ResultsFacts.

Import Results.

Lemma update_nth_app {A} (f : A -> A) (l l' : list A) (k : nat) :
  update_nth (List.length l + k) f (l ++ l') = l ++ update_nth k f l'.
Proof. induction l as [|x l IH]; simpl; [reflexivity | rewrite IH; reflexivity]. Qed.

Lemma update_nth_last {A} (f : A -> A) (l l' : list A) :
  update_nth (List.length l) f (l ++ l') = l ++ update_nth 0 f l'.
Proof. rewrite <- (update_nth_app f l l' 0), Nat.add_0_r. reflexivity. Qed.

(** The three items of a context menu for a file name. *)
Definition menu_items_for (fname : string) : list MenuItem :=
  [ {| item_label := "Copy path";
       activate_handlers := [copy_path_handler (CStr fname);
                             copy_path_handler (CStr fname)];
       item_visible := true |};
    {| item_label := "Open file location";
       activate_handlers := [];
       item_visible := true |};
    {| item_label := "Whitelist";
       activate_handlers := [];
       item_visible := true |} ].

(** The pane after one turn of the loop of lines 296-314 for row [r]. *)
Definition with_menu_for (r : file_row) (event : EventButton) (s : Pane)
  : Pane :=
  {| liststore := liststore s; selected_rows := selected_rows s;
     whitelist_button_sensitive := whitelist_button_sensitive s;
     abort_button_sensitive := abort_button_sensitive s;
     clipboard := clipboard s;
     items := items s ++ menu_items_for (filename r);
     menus := menus s
              ++ [{| menu_items := [List.length (items s);
                                    S (List.length (items s));
                                    S (S (List.length (items s)))];
                     menu_visible := true |}];
     popups := popups s ++ [(List.length (menus s), button event, time event)];
     output := output s |}.

(** The body of the loop of [on_file_result_context_menu]. *)
Definition context_menu_body (model : list file_row) (event : EventButton)
    (path : nat) : P unit :=
  tree_iter <~ plift (get_iter model path) ;;
  filename <~ plift (get_value model tree_iter 2) ;;
  menu <~ Menu_new ;;
  copy_path_item <~ MenuItem_new_with_label "Copy path" ;;
  connect_activate copy_path_item filename ;;~
  menu_append menu copy_path_item ;;~
  open_file_location_item <~ MenuItem_new_with_label "Open file location" ;;
  connect_activate copy_path_item filename ;;~
  menu_append menu open_file_location_item ;;~
  whitelist_item <~ MenuItem_new_with_label "Whitelist" ;;
  menu_append menu whitelist_item ;;~
  show_all menu ;;~
  popup menu (button event) (time event).

(** One step of a computation: the first call of [prim] is run on the
    pane. *)
Ltac pstep prim :=
  unfold pbind at 1; unfold prim at 1; cbv beta iota;
  cbn [liststore selected_rows whitelist_button_sensitive
       abort_button_sensitive clipboard items menus popups output
       set_items set_menus].

Lemma pane_ext (s s' : Pane) :
  liststore s = liststore s' ->
  selected_rows s = selected_rows s' ->
  whitelist_button_sensitive s = whitelist_button_sensitive s' ->
  abort_button_sensitive s = abort_button_sensitive s' ->
  clipboard s = clipboard s' ->
  items s = items s' ->
  menus s = menus s' ->
  popups s = popups s' ->
  output s = output s' ->
  s = s'.
Proof. destruct s, s'; cbn; intros; subst; reflexivity. Qed.

Lemma context_menu_body_row (model : list file_row) (event : EventButton)
    (path : nat) (r : file_row) (s : Pane) :
  nth_error model path = Some r ->
  context_menu_body model event path s = (Some tt, with_menu_for r event s).
Proof.
  intros Hr.
  assert (Hlt : (path <? List.length model)%nat = true)
    by (apply Nat.ltb_lt, nth_error_Some; congruence).
  unfold context_menu_body.
  unfold pbind at 1, plift at 1, get_iter. rewrite Hlt. cbv beta iota.
  unfold pbind at 1, plift at 1, get_value. rewrite Hr. cbv beta iota.
  pstep Menu_new.
  pstep MenuItem_new_with_label.
  pstep connect_activate. rewrite update_nth_last.
  cbn [update_nth item_label activate_handlers item_visible app].
  pstep menu_append. rewrite update_nth_last.
  cbn [update_nth menu_items menu_visible app].
  pstep MenuItem_new_with_label.
  pstep connect_activate. rewrite <- app_assoc, update_nth_last.
  cbn [update_nth item_label activate_handlers item_visible app].
  pstep menu_append. rewrite update_nth_last.
  cbn [update_nth menu_items menu_visible app].
  pstep MenuItem_new_with_label.
  pstep menu_append. rewrite update_nth_last.
  cbn [update_nth menu_items menu_visible app].
  pstep show_all.
  rewrite nth_error_app2 by lia. rewrite Nat.sub_diag.
  cbn [nth_error menu_items fold_left].
  rewrite !length_app. cbn [List.length].
  rewrite <- app_assoc. cbn [app].
  rewrite !update_nth_last.
  cbn [update_nth show_item item_label activate_handlers item_visible
       menu_items menu_visible].
  rewrite !update_nth_app.
  cbn [update_nth show_item item_label activate_handlers item_visible].
  unfold popup. f_equal.
  apply pane_ext;
    cbn [liststore selected_rows whitelist_button_sensitive
         abort_button_sensitive clipboard items menus popups output
         set_items set_menus with_menu_for]; try reflexivity.
  replace (List.length (items s) + 1) with (S (List.length (items s)))
    by lia.
  replace (List.length (items s) + 2) with (S (S (List.length (items s))))
    by lia.
  reflexivity.
Qed.

End ResultsFacts.

Section ContextMenu.

Import Results.

(** The menu [menu] of pane [s] is shown and has the three items of a
    context menu for [fname], as the objects [i0], [i1], [i2]. *)
Definition context_menu_at (s : Pane) (menu : nat) (fname : string)
    (i0 i1 i2 : nat) : Prop :=
  nth_error (menus s) menu
  = Some {| menu_items := [i0; i1; i2]; menu_visible := true |}
  /\ nth_error (items s) i0 = nth_error (menu_items_for fname) 0
  /\ nth_error (items s) i1 = nth_error (menu_items_for fname) 1
  /\ nth_error (items s) i2 = nth_error (menu_items_for fname) 2.

(** The second pane has the objects of the first, unchanged, and possibly
    more; the rest of the pane is the same but for the pop-ups. *)
Definition more_widgets (s s' : Pane) : Prop :=
  liststore s' = liststore s
  /\ selected_rows s' = selected_rows s
  /\ whitelist_button_sensitive s' = whitelist_button_sensitive s
  /\ abort_button_sensitive s' = abort_button_sensitive s
  /\ clipboard s' = clipboard s
  /\ output s' = output s
  /\ (exists new, items s' = items s ++ new)
  /\ (exists new, menus s' = menus s ++ new).

Lemma more_widgets_refl (s : Pane) : more_widgets s s.
Proof.
  unfold more_widgets. repeat split; try reflexivity;
    exists []; rewrite app_nil_r; reflexivity.
Qed.

Lemma more_widgets_trans (s1 s2 s3 : Pane) :
  more_widgets s1 s2 -> more_widgets s2 s3 -> more_widgets s1 s3.
Proof.
  unfold more_widgets.
  intros (A1 & A2 & A3 & A4 & A5 & A6 & (ni1 & A7) & (nm1 & A8))
         (B1 & B2 & B3 & B4 & B5 & B6 & (ni2 & B7) & (nm2 & B8)).
  repeat split; try congruence.
  - exists (ni1 ++ ni2). rewrite B7, A7, app_assoc. reflexivity.
  - exists (nm1 ++ nm2). rewrite B8, A8, app_assoc. reflexivity.
Qed.

Lemma more_widgets_with_menu_for (r : file_row) (event : EventButton)
    (s : Pane) :
  more_widgets s (with_menu_for r event s).
Proof.
  unfold more_widgets, with_menu_for. cbn.
  repeat split; eexists; reflexivity.
Qed.

Lemma nth_error_app_some {A} (l l' : list A) (i : nat) (x : A) :
  nth_error l i = Some x -> nth_error (l ++ l') i = Some x.
Proof.
  intros H. rewrite nth_error_app1; [exact H|].
  apply nth_error_Some. congruence.
Qed.

Lemma context_menu_at_more (s s' : Pane) (menu : nat) (fname : string)
    (i0 i1 i2 : nat) :
  more_widgets s s' ->
  context_menu_at s menu fname i0 i1 i2 ->
  context_menu_at s' menu fname i0 i1 i2.
Proof.
  unfold more_widgets, context_menu_at.
  intros (_ & _ & _ & _ & _ & _ & (ni & Hi) & (nm & Hm)) (H & H0 & H1 & H2).
  rewrite Hi, Hm. cbn [menu_items_for nth_error] in *.
  repeat split; apply nth_error_app_some; assumption.
Qed.

Lemma context_menu_at_with_menu_for (r : file_row) (event : EventButton)
    (s : Pane) :
  context_menu_at (with_menu_for r event s) (List.length (menus s))
    (filename r) (List.length (items s)) (S (List.length (items s)))
    (S (S (List.length (items s)))).
Proof.
  unfold context_menu_at, with_menu_for. cbn [menus items].
  repeat split.
  - rewrite nth_error_app2, Nat.sub_diag by lia. reflexivity.
  - rewrite nth_error_app2, Nat.sub_diag by lia. reflexivity.
  - rewrite nth_error_app2 by lia.
    replace (S (List.length (items s)) - List.length (items s)) with 1 by lia.
    reflexivity.
  - rewrite nth_error_app2 by lia.
    replace (S (S (List.length (items s))) - List.length (items s)) with 2
      by lia.
    reflexivity.
Qed.

(** The loop of lines 296-314 over valid paths: it ends without an
    exception, pops one menu per path, in order, and the menu for the row
    at the [k]-th path is a context menu for that row's file name. *)
Lemma context_menu_loop (model : list file_row) (event : EventButton)
    (paths : list nat) :
  Forall (fun p => p < List.length model) paths ->
  forall s : Pane,
  exists s',
    for_each paths (context_menu_body model event) s = (Some tt, s')
    /\ more_widgets s s'
    /\ popups s'
       = popups s
         ++ map (fun k => (List.length (menus s) + k, button event, time event))
                (seq 0 (List.length paths))
    /\ forall k p r,
         nth_error paths k = Some p ->
         nth_error model p = Some r ->
         exists i0 i1 i2,
           context_menu_at s' (List.length (menus s) + k) (filename r)
                           i0 i1 i2.
Proof.
  induction 1 as [|p paths Hp _ IH]; intros s.
  - exists s. cbn [for_each List.length seq map]. rewrite app_nil_r.
    split; [reflexivity|]. split; [apply more_widgets_refl|].
    split; [reflexivity|].
    intros [|k] ? ? H; discriminate.
  - destruct (nth_error model p) as [r|] eqn:Hr;
      [|apply nth_error_None in Hr; lia].
    destruct (IH (with_menu_for r event s)) as (s' & Hrun & Hmore & Hpop & Hk).
    exists s'. cbn [for_each]. unfold pbind at 1.
    rewrite (context_menu_body_row _ _ _ _ _ Hr).
    split; [exact Hrun|].
    assert (Hmore1 := more_widgets_with_menu_for r event s).
    split; [exact (more_widgets_trans _ _ _ Hmore1 Hmore)|].
    assert (Hlen : List.length (menus (with_menu_for r event s))
                   = S (List.length (menus s))).
    { unfold with_menu_for. cbn [menus]. rewrite length_app. simpl. lia. }
    split.
    + rewrite Hpop, Hlen. unfold with_menu_for at 1. cbn [popups].
      rewrite <- app_assoc. f_equal. cbn [List.length seq map app].
      rewrite Nat.add_0_r. f_equal.
      rewrite <- seq_shift, map_map. apply map_ext. intros k.
      f_equal. f_equal. lia.
    + intros [|k] q rq Hq Hrq.
      * cbn [nth_error] in Hq. assert (q = p) by congruence. subst q.
        assert (rq = r) by congruence. subst rq.
        rewrite Nat.add_0_r. eexists _, _, _.
        apply (context_menu_at_more _ _ _ _ _ _ _ Hmore).
        apply context_menu_at_with_menu_for.
      * cbn [nth_error] in Hq.
        destruct (Hk k q rq Hq Hrq) as (i0 & i1 & i2 & H).
        rewrite Hlen in H. exists i0, i1, i2.
        replace (List.length (menus s) + S k)
          with (S (List.length (menus s)) + k) by lia.
        exact H.
Qed.

Lemma on_file_result_context_menu_right (event : EventButton) (s : Pane) :
  button event = 3%Z ->
  on_file_result_context_menu event s
  = for_each (selected_rows s) (context_menu_body (liststore s) event) s.
Proof.
  intros Hb. destruct event as [b t]. cbn [button] in Hb. subst b.
  reflexivity.
Qed.

End ContextMenu.

Section ResultsTheorems.

Import Results.

Lemma menu_view_context_menu (s : Pane) (menu : nat) (fname : string)
    (i0 i1 i2 : nat) :
  context_menu_at s menu fname i0 i1 i2 ->
  menu_view s menu
  = Some [("Copy path",
           [copy_path_handler (CStr fname); copy_path_handler (CStr fname)],
           true);
          ("Open file location", [], true);
          ("Whitelist", [], true)].
Proof.
  intros (Hm & H0 & H1 & H2). unfold menu_view. rewrite Hm.
  cbn [menu_items map]. rewrite H0, H1, H2. reflexivity.
Qed.

Lemma nth_error_popups (l : list (nat * Z * Z)) (f : nat -> nat * Z * Z)
    (n k : nat) :
  k < n ->
  nth_error (l ++ map f (seq 0 n)) (List.length l + k) = Some (f k).
Proof.
  intros Hk. rewrite nth_error_app2 by lia.
  replace (List.length l + k - List.length l) with k by lia.
  rewrite nth_error_map, nth_error_seq.
  destruct (Nat.ltb_spec k n); [reflexivity | lia].
Qed.

(** X9 (lines 289-314): a press of another button than the right one
    changes nothing.  A press of the right button, when the selected paths
    lead to rows, ends without an exception and pops one menu per selected
    row, in the order of the selection; the menu for a row is shown with
    the items Copy path, Open file location and Whitelist, in this order;
    the first has the copy handler connected twice, with the row's file
    name, and the other two have no handler.  The list of files, the
    selection and the clipboard are as before. *)
Theorem context_menu_pops_one_menu_per_selected_row (event : EventButton)
    (s : Pane) :
  Forall (fun p => p < List.length (liststore s)) (selected_rows s) ->
  (button event <> 3%Z ->
   on_file_result_context_menu event s = (Some tt, s))
  /\ (button event = 3%Z ->
      exists s',
        on_file_result_context_menu event s = (Some tt, s')
        /\ liststore s' = liststore s
        /\ selected_rows s' = selected_rows s
        /\ clipboard s' = clipboard s
        /\ List.length (popups s')
           = List.length (popups s) + List.length (selected_rows s)
        /\ forall k p r,
             nth_error (selected_rows s) k = Some p ->
             nth_error (liststore s) p = Some r ->
             exists menu,
               nth_error (popups s') (List.length (popups s) + k)
               = Some (menu, 3%Z, time event)
               /\ menu_view s' menu
                  = Some [("Copy path",
                           [copy_path_handler (CStr (filename r));
                            copy_path_handler (CStr (filename r))],
                           true);
                          ("Open file location", [], true);
                          ("Whitelist", [], true)]).
Proof.
  intros Hvalid. split.
  - intros Hb. unfold on_file_result_context_menu.
    apply Z.eqb_neq in Hb. rewrite Hb. reflexivity.
  - intros Hb. rewrite (on_file_result_context_menu_right _ _ Hb).
    destruct (context_menu_loop (liststore s) event (selected_rows s) Hvalid s)
      as (s' & Hrun & Hmore & Hpop & Hk).
    exists s'. split; [exact Hrun|].
    destruct Hmore as (A1 & A2 & _ & _ & A5 & _).
    split; [exact A1|]. split; [exact A2|]. split; [exact A5|]. split.
    + rewrite Hpop, length_app, length_map, length_seq. reflexivity.
    + intros k p r Hp Hr.
      destruct (Hk k p r Hp Hr) as (i0 & i1 & i2 & Hat).
      exists (List.length (menus s) + k). split.
      * rewrite Hpop, nth_error_popups, Hb; [reflexivity|].
        apply nth_error_Some. congruence.
      * apply (menu_view_context_menu _ _ _ _ _ _ Hat).
Qed.

Definition set_clipboard (text : string) (s : Pane) : Pane :=
  {| liststore := liststore s; selected_rows := selected_rows s;
     whitelist_button_sensitive := whitelist_button_sensitive s;
     abort_button_sensitive := abort_button_sensitive s;
     clipboard := Some text; items := items s; menus := menus s;
     popups := popups s; output := output s |}.

Lemma activate_context_menu (s : Pane) (menu : nat) (fname : string)
    (i0 i1 i2 : nat) :
  context_menu_at s menu fname i0 i1 i2 ->
  activate i0 s = (Some tt, set_clipboard fname s)
  /\ activate i1 s = (Some tt, s)
  /\ activate i2 s = (Some tt, s).
Proof.
  intros (_ & H0 & H1 & H2). unfold activate, pbind, pgets, plift.
  rewrite H0, H1, H2. cbn. auto.
Qed.

(** X10 (lines 283-287, 296-309): after a press of the right button, in
    the menu popped for a selected row, picking Copy path puts the file
    name of that row on the clipboard and changes nothing else; picking
    Open file location or Whitelist changes nothing at all. *)
Theorem only_copy_path_item_acts (event : EventButton) (s : Pane) :
  button event = 3%Z ->
  Forall (fun p => p < List.length (liststore s)) (selected_rows s) ->
  exists s',
    on_file_result_context_menu event s = (Some tt, s')
    /\ forall k p r,
         nth_error (selected_rows s) k = Some p ->
         nth_error (liststore s) p = Some r ->
         exists menu i0 i1 i2,
           nth_error (popups s') (List.length (popups s) + k)
           = Some (menu, 3%Z, time event)
           /\ option_map menu_items (nth_error (menus s') menu)
              = Some [i0; i1; i2]
           /\ activate i0 s' = (Some tt, set_clipboard (filename r) s')
           /\ activate i1 s' = (Some tt, s')
           /\ activate i2 s' = (Some tt, s').
Proof.
  intros Hb Hvalid. rewrite (on_file_result_context_menu_right _ _ Hb).
  destruct (context_menu_loop (liststore s) event (selected_rows s) Hvalid s)
    as (s' & Hrun & Hmore & Hpop & Hk).
  exists s'. split; [exact Hrun|].
  intros k p r Hp Hr.
  destruct (Hk k p r Hp Hr) as (i0 & i1 & i2 & Hat).
  exists (List.length (menus s) + k), i0, i1, i2. split.
  - rewrite Hpop, nth_error_popups, Hb; [reflexivity|].
    apply nth_error_Some. congruence.
  - split.
    + destruct Hat as (Hm & _). rewrite Hm. reflexivity.
    + apply (activate_context_menu _ _ _ _ _ _ Hat).
Qed.

Definition add_output (lines : list string) (s : Pane) : Pane :=
  {| liststore := liststore s; selected_rows := selected_rows s;
     whitelist_button_sensitive := whitelist_button_sensitive s;
     abort_button_sensitive := abort_button_sensitive s;
     clipboard := clipboard s; items := items s; menus := menus s;
     popups := popups s; output := output s ++ lines |}.

(** The line written for the row at a path. *)
Definition whitelisted_line (model : list file_row) (path : nat) : string :=
  match nth_error model path with
  | Some r => ("Whitelisted: " ++ filename r)%string
  | None => EmptyString
  end.

Lemma whitelist_loop (model : list file_row) (paths : list nat) :
  Forall (fun p => p < List.length model) paths ->
  forall s : Pane,
    for_each paths
      (fun path =>
         filename <~ plift (getitem model path 2) ;;
         print ("Whitelisted: " ++ format_cell filename)%string) s
    = (Some tt, add_output (map (whitelisted_line model) paths) s).
Proof.
  induction 1 as [|p paths Hp _ IH]; intros s.
  - cbn [for_each map]. unfold pret, add_output. rewrite app_nil_r.
    destruct s; reflexivity.
  - cbn [for_each map]. unfold pbind at 1. unfold pbind at 1.
    unfold plift, getitem, get_iter, get_value, whitelisted_line at 1.
    apply Nat.ltb_lt in Hp as Hlt. rewrite Hlt.
    destruct (nth_error model p) as [r|] eqn:Hr;
      [|apply nth_error_None in Hr; lia].
    cbn [format_cell]. unfold print at 1. rewrite IH.
    unfold add_output. cbn. rewrite <- app_assoc. reflexivity.
Qed.

(** X11 (lines 367-374): a click on Whitelist, when the selected paths lead
    to rows, writes one line per selected row to standard output, in the
    order of the selection, with the row's file name; it removes no row
    from the list, records nothing, and leaves the selection as it is. *)
Theorem whitelist_click_only_prints (s : Pane) :
  Forall (fun p => p < List.length (liststore s)) (selected_rows s) ->
  on_whitelist_clicked s
  = (Some tt,
     add_output (map (whitelisted_line (liststore s)) (selected_rows s)) s).
Proof.
  intros Hvalid. unfold on_whitelist_clicked, pbind at 1 2, pgets.
  apply (whitelist_loop _ _ Hvalid).
Qed.

End ResultsTheorems.

Definition right_click : Results.EventButton :=
  {| Results.button := 3; Results.time := 5 |}.

Lemma context_menu_pops_one_menu_per_selected_row_witness :
  (Results.button right_click <> 3%Z ->
   Results.on_file_result_context_menu right_click example_pane
   = (Some tt, example_pane))
  /\ (Results.button right_click = 3%Z ->
      exists s',
        Results.on_file_result_context_menu right_click example_pane
        = (Some tt, s')
        /\ Results.liststore s' = Results.liststore example_pane
        /\ Results.selected_rows s' = Results.selected_rows example_pane
        /\ Results.clipboard s' = Results.clipboard example_pane
        /\ List.length (Results.popups s')
           = List.length (Results.popups example_pane)
             + List.length (Results.selected_rows example_pane)
        /\ forall k p r,
             nth_error (Results.selected_rows example_pane) k = Some p ->
             nth_error (Results.liststore example_pane) p = Some r ->
             exists menu,
               nth_error (Results.popups s')
                         (List.length (Results.popups example_pane) + k)
               = Some (menu, 3%Z, Results.time right_click)
               /\ Results.menu_view s' menu
                  = Some [("Copy path",
                           [Results.copy_path_handler
                              (Results.CStr (Results.filename r));
                            Results.copy_path_handler
                              (Results.CStr (Results.filename r))],
                           true);
                          ("Open file location", [], true);
                          ("Whitelist", [], true)]).
Proof.
  apply (context_menu_pops_one_menu_per_selected_row right_click example_pane).
  repeat constructor.
Defined.

Lemma only_copy_path_item_acts_witness :
  exists s',
    Results.on_file_result_context_menu
      {| Results.button := 3; Results.time := 5 |} example_pane
    = (Some tt, s')
    /\ forall k p r,
         nth_error (Results.selected_rows example_pane) k = Some p ->
         nth_error (Results.liststore example_pane) p = Some r ->
         exists menu i0 i1 i2,
           nth_error (Results.popups s')
                     (List.length (Results.popups example_pane) + k)
           = Some (menu, 3%Z, 5%Z)
           /\ option_map Results.menu_items (nth_error (Results.menus s') menu)
              = Some [i0; i1; i2]
           /\ Results.activate i0 s'
              = (Some tt, set_clipboard (Results.filename r) s')
           /\ Results.activate i1 s' = (Some tt, s')
           /\ Results.activate i2 s' = (Some tt, s').
Proof.
  apply (only_copy_path_item_acts
           {| Results.button := 3; Results.time := 5 |} example_pane).
  - reflexivity.
  - repeat constructor.
Defined.

Lemma whitelist_click_only_prints_witness :
  Results.on_whitelist_clicked example_pane
  = (Some tt,
     add_output ["Whitelisted: /home/u/.config/Edge/Cookies/31";
                 "Whitelisted: /home/u/.cache/Firefox/7"] example_pane).
Proof.
  apply (whitelist_click_only_prints example_pane).
  repeat constructor.
Defined.

(* ===================================================================== *)
(** ** The worker that fills the list of files (lines 316-365) *)
(* ===================================================================== *)

From Stdlib Require QArith.

Module Worker.

Import Results.

(** What one call of the random number generator returns: an integer
    ([randint], or the index drawn by [choice]), or a float of [random()],
    which is a fraction [k / 2^53] and is held as that rational. *)
Inductive draw : Type :=
| DInt (z : Z)
| DUnit (x : QArith_base.Q).

(** Computations of the worker: they work on the pane and are given the
    draws of the generator, in the order of the calls.  The result [None]
    says that the draws given are not draws the generator can return at
    these calls; nothing in the worker raises. *)
Definition R (A : Type) : Type :=
  list draw -> Pane -> option (A * list draw * Pane).

Definition rret {A} (a : A) : R A := fun tape s => Some (a, tape, s).

Definition rbind {A B} (m : R A) (k : A -> R B) : R B :=
  fun tape s => match m tape s with
                | Some (a, tape', s') => k a tape' s'
                | None => None
                end.

Notation "x <-- m ;; k" := (rbind m (fun x => k))
  (at level 61, m at next level, right associativity).
Notation "m ;;- k" := (rbind m (fun _ => k))
  (at level 61, right associativity).

(** [random.randint(a, b)]: an integer from [a] to [b], both included. *)
Definition randint (a b : Z) : R Z :=
  fun tape s =>
    match tape with
    | DInt z :: tape' =>
        if ((a <=? z) && (z <=? b))%Z then Some (z, tape', s) else None
    | _ => None
    end.

(** [random.choice(seq)]: the element at an index drawn below [len(seq)]. *)
Definition choice {A} (seq : list A) : R A :=
  fun tape s =>
    match tape with
    | DInt z :: tape' =>
        if (0 <=? z)%Z then
          match nth_error seq (Z.to_nat z) with
          | Some x => Some (x, tape', s)
          | None => None
          end
        else None
    | _ => None
    end.

(** [random.random()]: a float from 0 (included) to 1 (excluded). *)
Definition random : R QArith_base.Q :=
  fun tape s =>
    match tape with
    | DUnit x :: tape' =>
        if QArith_base.Qle_bool (QArith_base.Qmake 0 1) x
           && negb (QArith_base.Qle_bool (QArith_base.Qmake 1 1) x)
        then Some (x, tape', s) else None
    | _ => None
    end.

(** [random.uniform(a, b)], that is [a + (b - a) * random()].  The value is
    computed here without the rounding of floats; the worker uses it for
    the length of a sleep only. *)
Definition uniform (a b : QArith_base.Q) : R QArith_base.Q :=
  x <-- random ;;
  rret (QArith_base.Qplus a (QArith_base.Qmult (QArith_base.Qminus b a) x)).

(** [time.sleep(secs)]: time passes and the pane stays as it is. *)
Definition sleep (secs : QArith_base.Q) : R unit := rret tt.

(** The float literals, as the rationals these doubles are. *)
Definition float_0_05 : QArith_base.Q :=
  QArith_base.Qmake 3602879701896397 72057594037927936.
Definition float_0_15 : QArith_base.Q :=
  QArith_base.Qmake 5404319552844595 36028797018963968.
Definition float_0_01 : QArith_base.Q :=
  QArith_base.Qmake 5764607523034235 576460752303423488.
Definition float_0_2 : QArith_base.Q :=
  QArith_base.Qmake 3602879701896397 18014398509481984.

(** [x < y] on floats. *)
Definition float_lt (x y : QArith_base.Q) : bool := negb (QArith_base.Qle_bool y x).

(** [str(n)] for an integer. *)
Definition str (n : Z) : string :=
  DecimalString.NilZero.string_of_int (Z.to_int n).

(** [s.startswith("/")] and [s.endswith("/")] *)
Definition startswith_sep (s : string) : bool :=
  match s with
  | String c _ => Ascii.eqb c "/"
  | EmptyString => false
  end.

Fixpoint endswith_sep (s : string) : bool :=
  match s with
  | EmptyString => false
  | String c EmptyString => Ascii.eqb c "/"
  | String _ s' => endswith_sep s'
  end.

(** The loop of [posixpath.join]: a component that starts with the
    separator replaces what was joined so far; otherwise it is added, after
    a separator unless the path is empty or ends with one. *)
Fixpoint join_from (path : string) (p : list string) : string :=
  match p with
  | [] => path
  | b :: rest =>
      join_from
        (if startswith_sep b then b
         else if (String.eqb path "" || endswith_sep path)%bool
              then path ++ b
              else path ++ "/" ++ b)%string
        rest
  end.

(** [os.path.join(a, *p)] *)
Definition join (a : string) (p : list string) : string := join_from a p.

(** [self.abort_button.set_sensitive(sensitive)] *)
Definition abort_button_set_sensitive (sensitive : bool) : R unit :=
  fun tape s =>
    Some (tt, tape,
          {| liststore := liststore s; selected_rows := selected_rows s;
             whitelist_button_sensitive := whitelist_button_sensitive s;
             abort_button_sensitive := sensitive;
             clipboard := clipboard s; items := items s; menus := menus s;
             popups := popups s; output := output s |}).

Definition set_liststore (rows : list file_row) (s : Pane) : Pane :=
  {| liststore := rows; selected_rows := selected_rows s;
     whitelist_button_sensitive := whitelist_button_sensitive s;
     abort_button_sensitive := abort_button_sensitive s;
     clipboard := clipboard s; items := items s; menus := menus s;
     popups := popups s; output := output s |}.

(** [self.liststore.append([...])].  The list is taken as it is until a
    column header is clicked, without a sort order: the row goes after the
    last one. *)
Definition liststore_append (r : file_row) : R unit :=
  fun tape s => Some (tt, tape, set_liststore (liststore s ++ [r]) s).

(** [self.liststore.clear()] *)
Definition liststore_clear : P unit :=
  fun s => (Some tt, set_liststore [] s).

(** [for i in range(n): body(i)] *)
Fixpoint for_range_from (i : nat) (n : nat) (body : nat -> R unit) : R unit :=
  match n with
  | 0 => rret tt
  | S n' => body i ;;- for_range_from (S i) n' body
  end.

Definition for_range (n : Z) (body : nat -> R unit) : R unit :=
  for_range_from 0 (Z.to_nat n) body.

(** Lines 322-362, run from its first to its last line.  [home] is the
    value of [os.path.expanduser("~")]. *)
Definition _populate_data (home : string) (is_delete : bool) : R unit :=
  abort_button_set_sensitive true ;;-
  num_files <-- randint 5 50 ;;
  for_range num_files (fun i =>
    cleaner_name <-- choice ["Chrome"; "Firefox"; "Edge"]%string ;;
    option_name <--
      choice ["Cache"; "History"; "Cookies"; "Sessions"; "Passwords"]%string ;;
    n <-- randint 0 100 ;;
    let filename := join home [".config"; cleaner_name; option_name; str n] in
    filename <--
      (if String.eqb option_name "Cache"
       then n' <-- randint 0 100 ;;
            rret (join home [".cache"; cleaner_name; str n'])
       else rret filename) ;;
    size <-- randint 0 10000 ;;
    result_random <-- random ;;
    let result :=
      if is_delete then
        if float_lt result_random float_0_05 then "error"
        else if float_lt result_random float_0_15 then "deleted"
        else "shred"
      else ""%string in
    sleep_time_sec <-- uniform float_0_01 float_0_2 ;;
    let sleep_time_sec :=
      if negb is_delete
      then QArith_base.Qdiv sleep_time_sec (QArith_base.Qmake 10 1)
      else sleep_time_sec in
    sleep sleep_time_sec ;;-
    liststore_append {| cleaner_name := cleaner_name;
                        option_name := option_name;
                        filename := filename;
                        size := size;
                        result := result |}) ;;-
  abort_button_set_sensitive false.

(** Lines 316-320: the worker is handed to a new thread, which is started;
    the call returns the work the thread is to do. *)
Definition populate_data (home : string) (is_delete : bool) : P (R unit) :=
  pret (_populate_data home is_delete).

(** Lines 357-360. *)
Definition on_preview_clicked (home : string) : P (R unit) :=
  liststore_clear ;;~ populate_data home false.

(** Lines 362-365. *)
Definition on_clean_clicked (home : string) : P (R unit) :=
  liststore_clear ;;~ populate_data home true.

End Worker.

(** Draws for a preview of five files. *)
Definition example_tape : list Worker.draw :=
  let half := Worker.DUnit (QArith_base.Qmake 1 2) in
  let tenth := Worker.DUnit (QArith_base.Qmake 1 10) in
  let small := Worker.DUnit (QArith_base.Qmake 1 100) in
  [ Worker.DInt 5;
    Worker.DInt 0; Worker.DInt 0; Worker.DInt 17; Worker.DInt 3;
      Worker.DInt 120; half; half;
    Worker.DInt 1; Worker.DInt 1; Worker.DInt 100; Worker.DInt 0; small; half;
    Worker.DInt 2; Worker.DInt 4; Worker.DInt 0; Worker.DInt 10000; tenth; half;
    Worker.DInt 2; Worker.DInt 2; Worker.DInt 42; Worker.DInt 7; half; small;
    Worker.DInt 0; Worker.DInt 3; Worker.DInt 9; Worker.DInt 1; half; half ]%Z.

Example worker_run_clean :
  match Worker._populate_data "/home/u" true example_tape example_pane with
  | Some (_, rest, s) =>
      rest = []
      /\ map (fun r => (Results.filename r, Results.size r, Results.result r))
             (skipn 2 (Results.liststore s))
         = [("/home/u/.cache/Chrome/3", 120%Z, "shred");
            ("/home/u/.config/Firefox/History/100", 0%Z, "error");
            ("/home/u/.config/Edge/Passwords/0", 10000%Z, "deleted");
            ("/home/u/.config/Edge/Cookies/42", 7%Z, "shred");
            ("/home/u/.config/Chrome/Sessions/9", 1%Z, "shred")]
  | None => False
  end.
Proof. vm_compute. split; reflexivity. Qed.

Example join_examples :
  Worker.join "/home/u/" [".cache"; "Edge"; "7"] = "/home/u/.cache/Edge/7"
  /\ Worker.join "" [".cache"; "Edge"] = ".cache/Edge"
  /\ Worker.join "/home/u" ["/tmp"; "x"] = "/tmp/x"
  /\ Worker.join "~" ["a/"; "b"] = "~/a/b".
Proof. repeat split. Qed.

Section WorkerFacts.

Import Results Worker.

Local Open Scope string_scope.

(** *** Joining paths *)

Lemma string_app_assoc (s t u : string) : (s ++ t) ++ u = s ++ (t ++ u).
Proof. induction s as [|c s IH]; simpl; congruence. Qed.

(** The directory part a relative component is added to. *)
Definition with_sep (path : string) : string :=
  if (String.eqb path "" || endswith_sep path)%bool then path
  else path ++ "/".

(** A component that is not empty and neither starts nor ends with the
    separator. *)
Definition plain (b : string) : bool :=
  negb (String.eqb b "") && negb (startswith_sep b) && negb (endswith_sep b).

Lemma endswith_sep_app (a b : string) :
  b <> "" -> endswith_sep (a ++ b) = endswith_sep b.
Proof.
  intros Hb. induction a as [|c a IH]; [reflexivity|].
  cbn [append endswith_sep]. rewrite IH.
  destruct (a ++ b) eqn:E; [|reflexivity].
  destruct a; [simpl in E; congruence | discriminate].
Qed.

Lemma eqb_app_empty (a b : string) :
  b <> "" -> String.eqb (a ++ b) "" = false.
Proof.
  intros Hb. destruct a; simpl; [|reflexivity].
  destruct b; [congruence | reflexivity].
Qed.

Lemma join_from_relative (path b : string) (rest : list string) :
  startswith_sep b = false ->
  join_from path (b :: rest) = join_from (with_sep path ++ b) rest.
Proof.
  intros Hb. cbn [join_from]. rewrite Hb. unfold with_sep.
  destruct (String.eqb path "" || endswith_sep path)%bool; [reflexivity|].
  rewrite string_app_assoc. reflexivity.
Qed.

Lemma with_sep_plain (a b : string) :
  plain b = true -> with_sep (a ++ b) = a ++ b ++ "/".
Proof.
  unfold plain. rewrite !andb_true_iff, !negb_true_iff.
  intros [[Hne _] Hend].
  assert (Hb : b <> "") by (intros ->; discriminate).
  unfold with_sep. rewrite (eqb_app_empty a b Hb), (endswith_sep_app a b Hb).
  rewrite Hend. apply string_app_assoc.
Qed.

Lemma plain_startswith (b : string) : plain b = true -> startswith_sep b = false.
Proof.
  unfold plain. rewrite !andb_true_iff, !negb_true_iff. tauto.
Qed.

Lemma str_startswith (n : Z) : startswith_sep (str n) = false.
Proof.
  unfold str, DecimalString.NilZero.string_of_int.
  destruct (Z.to_int n) as [d|d]; [|reflexivity].
  unfold DecimalString.NilZero.string_of_uint. destruct d; reflexivity.
Qed.

(** Joining the home directory, plain components and a number. *)
Lemma join_three (home a b : string) (n : Z) :
  plain a = true -> plain b = true ->
  join home [a; b; str n] = with_sep home ++ a ++ "/" ++ b ++ "/" ++ str n.
Proof.
  intros Ha Hb. unfold join.
  rewrite join_from_relative by (apply plain_startswith, Ha).
  rewrite join_from_relative by (apply plain_startswith, Hb).
  rewrite join_from_relative by apply str_startswith.
  cbn [join_from].
  rewrite (with_sep_plain _ a Ha), (with_sep_plain _ b Hb).
  rewrite !string_app_assoc. reflexivity.
Qed.

Lemma join_four (home a b c : string) (n : Z) :
  plain a = true -> plain b = true -> plain c = true ->
  join home [a; b; c; str n]
  = with_sep home ++ a ++ "/" ++ b ++ "/" ++ c ++ "/" ++ str n.
Proof.
  intros Ha Hb Hc. unfold join.
  rewrite join_from_relative by (apply plain_startswith, Ha).
  rewrite join_from_relative by (apply plain_startswith, Hb).
  rewrite join_from_relative by (apply plain_startswith, Hc).
  rewrite join_from_relative by apply str_startswith.
  cbn [join_from].
  rewrite (with_sep_plain _ a Ha), (with_sep_plain _ b Hb),
    (with_sep_plain _ c Hc).
  rewrite !string_app_assoc. reflexivity.
Qed.

End WorkerFacts.

Section WorkerRun.

Import Results Worker.

Local Open Scope string_scope.

Definition cleaners : list string := ["Chrome"; "Firefox"; "Edge"].

Definition options : list string :=
  ["Cache"; "History"; "Cookies"; "Sessions"; "Passwords"].

(** The body of the loop of [_populate_data]. *)
Definition populate_body (home : string) (is_delete : bool) (i : nat)
  : R unit :=
  cleaner_name <-- choice ["Chrome"; "Firefox"; "Edge"]%string ;;
  option_name <--
    choice ["Cache"; "History"; "Cookies"; "Sessions"; "Passwords"]%string ;;
  n <-- randint 0 100 ;;
  let filename := join home [".config"; cleaner_name; option_name; str n] in
  filename <--
    (if String.eqb option_name "Cache"
     then n' <-- randint 0 100 ;;
          rret (join home [".cache"; cleaner_name; str n'])
     else rret filename) ;;
  size <-- randint 0 10000 ;;
  result_random <-- random ;;
  let result :=
    if is_delete then
      if float_lt result_random float_0_05 then "error"
      else if float_lt result_random float_0_15 then "deleted"
      else "shred"
    else ""%string in
  sleep_time_sec <-- uniform float_0_01 float_0_2 ;;
  let sleep_time_sec :=
    if negb is_delete
    then QArith_base.Qdiv sleep_time_sec (QArith_base.Qmake 10 1)
    else sleep_time_sec in
  sleep sleep_time_sec ;;-
  liststore_append {| cleaner_name := cleaner_name;
                      option_name := option_name;
                      filename := filename;
                      size := size;
                      result := result |}.

(** What the code shows of a row the worker adds. *)
Definition row_of_worker (home : string) (is_delete : bool) (r : file_row)
  : Prop :=
  In (cleaner_name r) cleaners
  /\ In (option_name r) options
  /\ (0 <= size r <= 10000)%Z
  /\ (if is_delete then In (result r) ["error"; "deleted"; "shred"]
      else result r = "")
  /\ exists n : Z,
       (0 <= n <= 100)%Z
       /\ filename r
          = if String.eqb (option_name r) "Cache"
            then join home [".cache"; cleaner_name r; str n]
            else join home [".config"; cleaner_name r; option_name r; str n].

Lemma rbind_some {A B} (m : R A) (k : A -> R B) tape s r :
  rbind m k tape s = Some r ->
  exists a tape1 s1, m tape s = Some (a, tape1, s1) /\ k a tape1 s1 = Some r.
Proof.
  unfold rbind. destruct (m tape s) as [[[a tape1] s1]|]; [eauto|discriminate].
Qed.

Lemma randint_some (a b : Z) tape s z tape' s' :
  randint a b tape s = Some (z, tape', s') -> (a <= z <= b)%Z /\ s' = s.
Proof.
  unfold randint. destruct tape as [|[x|x] tape0]; try discriminate.
  destruct ((a <=? x) && (x <=? b))%Z eqn:E; [|discriminate].
  intros H. apply Some_eq in H.
  assert (x = z /\ s = s') as [-> ->] by (split; congruence).
  apply andb_true_iff in E as [E1 E2]. split; [lia | reflexivity].
Qed.

Lemma choice_some {A} (seq : list A) tape s x tape' s' :
  choice seq tape s = Some (x, tape', s') -> In x seq /\ s' = s.
Proof.
  unfold choice. destruct tape as [|[z|z] tape0]; try discriminate.
  destruct (0 <=? z)%Z; [|discriminate].
  destruct (nth_error seq (Z.to_nat z)) as [y|] eqn:E; [|discriminate].
  intros H. apply Some_eq in H.
  assert (y = x /\ s = s') as [-> ->] by (split; congruence).
  split; [eapply nth_error_In, E | reflexivity].
Qed.

Lemma random_some tape s x tape' s' :
  random tape s = Some (x, tape', s') -> s' = s.
Proof.
  unfold random. destruct tape as [|[z|z] tape0]; try discriminate.
  destruct (_ && _)%bool; [|discriminate]. congruence.
Qed.

Lemma uniform_some (a b : QArith_base.Q) tape s x tape' s' :
  uniform a b tape s = Some (x, tape', s') -> s' = s.
Proof.
  intros H. apply rbind_some in H as (y & t1 & s1 & Hy & H).
  apply random_some in Hy. unfold rret in H. congruence.
Qed.

Lemma populate_body_some (home : string) (is_delete : bool) (i : nat)
    tape s tape' s' :
  populate_body home is_delete i tape s = Some (tt, tape', s') ->
  exists r, s' = set_liststore (liststore s ++ [r]) s
            /\ row_of_worker home is_delete r.
Proof.
  unfold populate_body. intros H.
  apply rbind_some in H as (c & t1 & s1 & Hc & H).
  apply choice_some in Hc as [Hc ->].
  apply rbind_some in H as (o & t2 & s2 & Ho & H).
  apply choice_some in Ho as [Ho ->].
  apply rbind_some in H as (n & t3 & s3 & Hn & H).
  apply randint_some in Hn as [Hn ->].
  apply rbind_some in H as (f & t4 & s4 & Hf & H).
  assert (Hfile : s4 = s
                  /\ exists m : Z,
                       (0 <= m <= 100)%Z
                       /\ f = if String.eqb o "Cache"
                              then join home [".cache"; c; str m]
                              else join home [".config"; c; o; str m]).
  { destruct (String.eqb o "Cache").
    - apply rbind_some in Hf as (m & t & s0 & Hm & Hf).
      apply randint_some in Hm as [Hm ->]. unfold rret in Hf.
      apply Some_eq in Hf. split; [congruence|]. exists m.
      split; [exact Hm | congruence].
    - unfold rret in Hf. apply Some_eq in Hf. split; [congruence|].
      exists n. split; [exact Hn | congruence]. }
  destruct Hfile as [-> Hfile]. clear Hf.
  apply rbind_some in H as (sz & t5 & s5 & Hsz & H).
  apply randint_some in Hsz as [Hsz ->].
  apply rbind_some in H as (x & t6 & s6 & Hx & H).
  apply random_some in Hx as ->.
  apply rbind_some in H as (u & t7 & s7 & Hu & H).
  apply uniform_some in Hu as ->.
  apply rbind_some in H as ([] & t8 & s8 & Hs & H).
  unfold sleep, rret in Hs. apply Some_eq in Hs.
  assert (s8 = s) by congruence. subst s8.
  unfold liststore_append in H. apply Some_eq in H.
  eexists. split; [symmetry; apply (f_equal snd) in H; exact H|].
  unfold row_of_worker.
  cbn [cleaner_name option_name filename size result].
  split; [exact Hc|]. split; [exact Ho|]. split; [exact Hsz|].
  split; [|exact Hfile].
  destruct is_delete; [|reflexivity].
  destruct (float_lt x float_0_05); [simpl; auto|].
  destruct (float_lt x float_0_15); simpl; auto.
Qed.

(** The loop of lines 325-361: [n] turns add [n] rows. *)
Lemma for_range_from_some (home : string) (is_delete : bool) (n : nat) :
  forall (i : nat) tape s tape' s',
    for_range_from i n (populate_body home is_delete) tape s
    = Some (tt, tape', s') ->
    exists rows,
      s' = set_liststore (liststore s ++ rows) s
      /\ List.length rows = n
      /\ Forall (row_of_worker home is_delete) rows.
Proof.
  induction n as [|n IH]; intros i tape s tape' s' H.
  - cbn [for_range_from] in H. unfold rret in H. apply Some_eq in H.
    exists []. split; [|split; [reflexivity | constructor]].
    rewrite app_nil_r. assert (s' = s) by congruence. subst s'.
    destruct s; reflexivity.
  - cbn [for_range_from] in H.
    apply rbind_some in H as ([] & t1 & s1 & Hbody & H).
    apply populate_body_some in Hbody as (r & -> & Hr).
    apply IH in H as (rows & -> & Hlen & Hrows).
    exists (r :: rows). split; [|split].
    + unfold set_liststore. cbn. rewrite <- app_assoc. reflexivity.
    + simpl. congruence.
    + constructor; assumption.
Qed.

(** The pane after a run of the worker that added [rows]. *)
Definition after_worker (rows : list file_row) (s : Pane) : Pane :=
  {| liststore := liststore s ++ rows; selected_rows := selected_rows s;
     whitelist_button_sensitive := whitelist_button_sensitive s;
     abort_button_sensitive := false;
     clipboard := clipboard s; items := items s; menus := menus s;
     popups := popups s; output := output s |}.

Lemma populate_data_some (home : string) (is_delete : bool)
    tape s tape' s' :
  _populate_data home is_delete tape s = Some (tt, tape', s') ->
  exists rows,
    s' = after_worker rows s
    /\ 5 <= List.length rows <= 50
    /\ Forall (row_of_worker home is_delete) rows.
Proof.
  intros H.
  change (_populate_data home is_delete)
    with (abort_button_set_sensitive true ;;-
          num_files <-- randint 5 50 ;;
          for_range num_files (populate_body home is_delete) ;;-
          abort_button_set_sensitive false) in H.
  apply rbind_some in H as ([] & t1 & s1 & Hab & H).
  unfold abort_button_set_sensitive in Hab. apply Some_eq in Hab.
  apply rbind_some in H as (n & t2 & s2 & Hn & H).
  apply randint_some in Hn as [Hn ->].
  apply rbind_some in H as ([] & t3 & s3 & Hloop & H).
  unfold for_range in Hloop.
  apply for_range_from_some in Hloop as (rows & -> & Hlen & Hrows).
  unfold abort_button_set_sensitive in H. apply Some_eq in H.
  exists rows. split; [|split; [lia | exact Hrows]].
  apply (f_equal snd) in H. cbn [snd] in H. subst s'.
  apply (f_equal snd) in Hab. cbn [snd] in Hab. subst s1.
  reflexivity.
Qed.

End WorkerRun.

Section WorkerTheorems.

Import Results Worker.

Local Open Scope string_scope.

(** X12 (lines 322-362): a run of the worker from its first to its last
    line makes the list longer by a number of rows from 5 to 50; it leaves
    the Abort button insensitive, and the selection, the clipboard, the
    Whitelist button and the output as they were. *)
Theorem worker_adds_five_to_fifty_rows (home : string) (is_delete : bool)
    (tape tape' : list draw) (s s' : Pane) :
  _populate_data home is_delete tape s = Some (tt, tape', s') ->
  exists n : nat,
    List.length (liststore s') = List.length (liststore s) + n
    /\ 5 <= n <= 50
    /\ abort_button_sensitive s' = false
    /\ selected_rows s' = selected_rows s
    /\ clipboard s' = clipboard s
    /\ whitelist_button_sensitive s' = whitelist_button_sensitive s
    /\ output s' = output s.
Proof.
  intros H. apply populate_data_some in H as (rows & -> & Hlen & _).
  exists (List.length rows). unfold after_worker. cbn [liststore
    abort_button_sensitive selected_rows clipboard
    whitelist_button_sensitive output].
  rewrite length_app. repeat split; lia.
Qed.

(** X13 (lines 326-350, 360): every row the worker adds names one of the
    three browsers and one of the five options and has a size from 0 to
    10000.  In a preview its action is empty; in a cleaning its action is
    one of error, deleted and shred. *)
Theorem worker_rows_are_in_range (home : string) (is_delete : bool)
    (tape tape' : list draw) (s s' : Pane) :
  _populate_data home is_delete tape s = Some (tt, tape', s') ->
  exists rows,
    liststore s' = (liststore s ++ rows)%list
    /\ Forall (fun r =>
                 In (cleaner_name r) ["Chrome"; "Firefox"; "Edge"]
                 /\ In (option_name r)
                       ["Cache"; "History"; "Cookies"; "Sessions"; "Passwords"]
                 /\ (0 <= size r <= 10000)%Z
                 /\ (if is_delete
                     then In (result r) ["error"; "deleted"; "shred"]
                     else result r = ""))
              rows.
Proof.
  intros H. apply populate_data_some in H as (rows & -> & _ & Hrows).
  exists rows. split; [reflexivity|].
  eapply Forall_impl; [|exact Hrows].
  intros r (Hc & Ho & Hs & Hr & _). auto.
Qed.

Lemma plain_cleaner (c : string) : In c cleaners -> plain c = true.
Proof. intros [<- | [<- | [<- | []]]]; reflexivity. Qed.

Lemma plain_option (o : string) : In o options -> plain o = true.
Proof. intros [<- | [<- | [<- | [<- | [<- | []]]]]]; reflexivity. Qed.

(** X14 (lines 330-334): the file name of every row the worker adds lies
    below the home directory: for the option Cache it is
    [.cache/<browser>/<n>], and for any other option
    [.config/<browser>/<option>/<n>], with a number [n] from 0 to 100; the
    home directory is followed by a separator unless it is empty or ends
    with one. *)
Theorem worker_file_names (home : string) (is_delete : bool)
    (tape tape' : list draw) (s s' : Pane) :
  _populate_data home is_delete tape s = Some (tt, tape', s') ->
  exists rows,
    liststore s' = (liststore s ++ rows)%list
    /\ Forall (fun r =>
                 exists n : Z,
                   (0 <= n <= 100)%Z
                   /\ filename r
                      = with_sep home
                        ++ (if String.eqb (option_name r) "Cache"
                            then ".cache/" ++ cleaner_name r ++ "/" ++ str n
                            else ".config/" ++ cleaner_name r ++ "/"
                                 ++ option_name r ++ "/" ++ str n))
              rows.
Proof.
  intros H. apply populate_data_some in H as (rows & -> & _ & Hrows).
  exists rows. split; [reflexivity|].
  eapply Forall_impl; [|exact Hrows].
  intros r (Hc & Ho & _ & _ & (n & Hn & Hf)).
  exists n. split; [exact Hn|]. rewrite Hf.
  apply plain_cleaner in Hc. apply plain_option in Ho.
  destruct (String.eqb (option_name r) "Cache").
  - rewrite (join_three home ".cache" (cleaner_name r) n) by
      (reflexivity || exact Hc).
    reflexivity.
  - rewrite (join_four home ".config" (cleaner_name r) (option_name r) n) by
      (reflexivity || assumption).
    reflexivity.
Qed.

(** X15 (lines 316-320, 357-365): a click on Preview or on Clean leaves
    the pane as it was but for the list, which it empties whatever it
    held, and hands the worker to a thread.  When this worker then runs
    from its first to its last line with nothing else touching the list,
    the list holds the rows this run added and no other: from 5 to 50
    rows, each as the worker makes them, with an empty action after
    Preview and a non-empty one after Clean. *)
Theorem click_then_worker_replaces_the_list (home : string)
    (is_delete : bool) (s s0 s' : Pane) (worker : R unit)
    (tape tape' : list draw) :
  (if is_delete then on_clean_clicked home s else on_preview_clicked home s)
  = (Some worker, s0) ->
  worker tape s0 = Some (tt, tape', s') ->
  s0 = set_liststore [] s
  /\ (forall old : list file_row,
         (if is_delete then on_clean_clicked home (set_liststore old s)
          else on_preview_clicked home (set_liststore old s))
         = (Some worker, s0))
  /\ 5 <= List.length (liststore s') <= 50
  /\ Forall (row_of_worker home is_delete) (liststore s')
  /\ Forall (fun r => if is_delete then result r <> "" else result r = "")
            (liststore s').
Proof.
  intros Hclick Hrun.
  assert (Hboth : worker = _populate_data home is_delete
                  /\ s0 = set_liststore [] s).
  { destruct is_delete;
      unfold on_preview_clicked, on_clean_clicked, pbind, liststore_clear,
        populate_data, pret in Hclick;
      (split; [apply Some_eq; symmetry; exact (f_equal fst Hclick)
              | symmetry; exact (f_equal snd Hclick)]). }
  destruct Hboth as [-> ->].
  split; [reflexivity|]. split.
  { intros old. destruct is_delete; reflexivity. }
  apply populate_data_some in Hrun as (rows & -> & Hlen & Hrows).
  unfold after_worker, set_liststore. cbn [liststore app].
  split; [exact Hlen|]. split; [exact Hrows|].
  eapply Forall_impl; [|exact Hrows].
  intros r (_ & _ & _ & Hr & _). destruct is_delete; [|exact Hr].
  destruct Hr as [<- | [<- | [<- | []]]]; discriminate.
Qed.

End WorkerTheorems.

(** The pane after the worker ran on the example draws. *)
Definition example_after (is_delete : bool) : Results.Pane :=
  match Worker._populate_data "/home/u" is_delete example_tape example_pane with
  | Some (_, _, s) => s
  | None => example_pane
  end.

(** The pane after a click and the run of the worker on the example draws. *)
Definition example_after_click (is_delete : bool) : Results.Pane :=
  match Worker._populate_data "/home/u" is_delete example_tape
          (Worker.set_liststore [] example_pane) with
  | Some (_, _, s) => s
  | None => example_pane
  end.

Lemma worker_adds_five_to_fifty_rows_witness :
  exists n : nat,
    List.length (Results.liststore (example_after true))
    = List.length (Results.liststore example_pane) + n
    /\ 5 <= n <= 50
    /\ Results.abort_button_sensitive (example_after true) = false
    /\ Results.selected_rows (example_after true)
       = Results.selected_rows example_pane
    /\ Results.clipboard (example_after true) = Results.clipboard example_pane
    /\ Results.whitelist_button_sensitive (example_after true)
       = Results.whitelist_button_sensitive example_pane
    /\ Results.output (example_after true) = Results.output example_pane.
Proof.
  apply (worker_adds_five_to_fifty_rows "/home/u" true example_tape []).
  vm_compute. reflexivity.
Defined.

Lemma worker_rows_are_in_range_witness :
  exists rows,
    Results.liststore (example_after false)
    = Results.liststore example_pane ++ rows
    /\ Forall (fun r =>
                 In (Results.cleaner_name r) ["Chrome"; "Firefox"; "Edge"]
                 /\ In (Results.option_name r)
                       ["Cache"; "History"; "Cookies"; "Sessions"; "Passwords"]
                 /\ (0 <= Results.size r <= 10000)%Z
                 /\ Results.result r = "")
              rows.
Proof.
  apply (worker_rows_are_in_range "/home/u" false example_tape []).
  vm_compute. reflexivity.
Defined.

Lemma worker_file_names_witness :
  exists rows,
    Results.liststore (example_after true)
    = Results.liststore example_pane ++ rows
    /\ Forall (fun r =>
                 exists n : Z,
                   (0 <= n <= 100)%Z
                   /\ Results.filename r
                      = (with_sep "/home/u"
                         ++ (if String.eqb (Results.option_name r) "Cache"
                             then ".cache/" ++ Results.cleaner_name r ++ "/"
                                  ++ Worker.str n
                             else ".config/" ++ Results.cleaner_name r ++ "/"
                                  ++ Results.option_name r ++ "/"
                                  ++ Worker.str n))%string)
              rows.
Proof.
  apply (worker_file_names "/home/u" true example_tape []).
  vm_compute. reflexivity.
Defined.

Lemma click_then_worker_replaces_the_list_witness :
  Worker.set_liststore [] example_pane = Worker.set_liststore [] example_pane
  /\ (forall old : list Results.file_row,
         Worker.on_preview_clicked "/home/u" (Worker.set_liststore old example_pane)
         = (Some (Worker._populate_data "/home/u" false),
            Worker.set_liststore [] example_pane))
  /\ 5 <= List.length (Results.liststore (example_after_click false)) <= 50
  /\ Forall (row_of_worker "/home/u" false)
            (Results.liststore (example_after_click false))
  /\ Forall (fun r => Results.result r = "")
            (Results.liststore (example_after_click false)).
Proof.
  apply (click_then_worker_replaces_the_list "/home/u" false example_pane
           (Worker.set_liststore [] example_pane)
           (example_after_click false)
           (Worker._populate_data "/home/u" false) example_tape []).
  - reflexivity.
  - vm_compute. reflexivity.
Defined.
